(** * stock_price_predictor: the data-processing pipeline

    A shallow embedding of [StockDataProcessor]
    (stock_price_predictor/data_processing.py) and of the pandas, pathlib
    and yfinance operations it calls, followed by the properties of the
    pipeline.

    - float64 values are Rocq's primitive binary64 floats, so NaN,
      infinities and rounding are those of the program;
    - a DataFrame is an index (trading dates as day ordinals) and an ordered
      list of named columns;
    - exceptions, the logger, the file system and the market-data provider
      are explicit: methods run in a state-and-exception monad over a
      [world]. *)

From Stdlib Require Import ZArith List Bool Lia Ascii String.
From Stdlib Require Import PrimFloat Uint63 SpecFloat FloatOps FloatAxioms.
From stdpp Require Import base option list strings pretty gmap.

Local Open Scope Z_scope.
Local Open Scope string_scope.
Local Open Scope list_scope.

(** ** Exceptions and results *)

Abbreviation path := (list string).

Inductive exn : Type :=
| KeyError (key : string)
| DataError
| OverflowError
| FileNotFoundError (p : path)
| FileExistsError (p : path)
| NotADirectoryError (p : path)
| IsADirectoryError (p : path)
| OSError (p : path)
| ProviderError (msg : string).

Inductive result (A : Type) : Type :=
| Ok (a : A)
| Raise (e : exn).
Arguments Ok {A} a.
Arguments Raise {A} e.

Definition rbind {A B} (r : result A) (k : A -> result B) : result B :=
  match r with
  | Ok a => k a
  | Raise e => Raise e
  end.

Declare Scope result_scope.
Delimit Scope result_scope with res.
Notation "x <~ r ;; k" := (rbind r (fun x => k))
  (at level 100, r at next level, right associativity) : result_scope.

(** ** Values *)

(** A DataFrame cell: a float64, an int64 or a Python object (a string). *)
Inductive cell : Type :=
| CFloat (x : float)
| CInt (n : Z)
| CStr (s : string).

(** What [stock.info] may hold under a key. *)
Inductive pyval : Type :=
| PyNone
| PyFloat (x : float)
| PyInt (n : Z)
| PyStr (s : string).

(** Python truthiness, as tested by [if target_data:]. *)
Definition truthy (v : pyval) : bool :=
  match v with
  | PyNone => false
  | PyFloat x => negb (PrimFloat.eqb x 0%float)
  | PyInt n => negb (Z.eqb n 0)
  | PyStr s => negb (String.eqb s "")
  end.

(** [pandas.isna] on one cell. *)
Definition isna (c : cell) : bool :=
  match c with
  | CFloat x => PrimFloat.is_nan x
  | CInt _ => false
  | CStr _ => false
  end.

(** An int64 as a float64 (magnitudes below 2^63). *)
Definition float_of_Z (z : Z) : float :=
  match z with
  | Z0 => 0%float
  | Zpos _ => PrimFloat.of_uint63 (Uint63.of_Z z)
  | Zneg p => PrimFloat.opp (PrimFloat.of_uint63 (Uint63.of_Z (Zpos p)))
  end.

Definition float_of_nat (n : nat) : float := float_of_Z (Z.of_nat n).

(** ** DataFrames *)

Record frame : Type := Frame {
  index_name : option string;
  index : list Z;
  columns : list (string * list cell)
}.

Definition nrows (df : frame) : nat := length (index df).

(** Every column is as long as the index. *)
Definition wf_frame (df : frame) : Prop :=
  Forall (fun kc => length (snd kc) = nrows df) (columns df).

Fixpoint lookup_column (key : string) (cols : list (string * list cell))
  : option (list cell) :=
  match cols with
  | [] => None
  | (k, c) :: rest => if String.eqb k key then Some c else lookup_column key rest
  end.

(** [df[key]] *)
Definition getitem (df : frame) (key : string) : result (list cell) :=
  match lookup_column key (columns df) with
  | Some c => Ok c
  | None => Raise (KeyError key)
  end.

Fixpoint assign_column (key : string) (col : list cell)
  (cols : list (string * list cell)) : list (string * list cell) :=
  match cols with
  | [] => [(key, col)]
  | (k, c) :: rest =>
      if String.eqb k key then (k, col) :: rest
      else (k, c) :: assign_column key col rest
  end.

(** [df[key] = col]: an existing column is replaced where it stands, a new
    one is appended. *)
Definition setitem (df : frame) (key : string) (col : list cell) : frame :=
  Frame (index_name df) (index df) (assign_column key col (columns df)).

Definition cell_of_pyval (v : pyval) : cell :=
  match v with
  | PyNone => CFloat PrimFloat.nan
  | PyFloat x => CFloat x
  | PyInt n => CInt n
  | PyStr s => CStr s
  end.

(** [df[key] = v] for a scalar [v]: the value is broadcast to every row. *)
Definition setitem_scalar (df : frame) (key : string) (v : pyval) : frame :=
  setitem df key (repeat (cell_of_pyval v) (nrows df)).

(** ** pandas: rolling windows, pct_change, dropna *)

Module Pandas.

(** Values of a numeric column as float64; an object column holding
    text is refused ("No numeric types to aggregate"). A [CStr] stands for
    text that does not read as a number. A str that does read as one
    (such as 1.5 in quotes) is converted by the rolling means and meets
    the division of [pct_change] later; that path is not modelled, and
    the properties of text in a numeric column are stated for text that
    is [not_a_number]. *)
Fixpoint to_float64 (col : list cell) : result (list float) :=
  match col with
  | [] => Ok []
  | CFloat x :: rest => (xs <~ to_float64 rest ;; Ok (x :: xs))%res
  | CInt n :: rest => (xs <~ to_float64 rest ;; Ok (float_of_Z n :: xs))%res
  | CStr _ :: _ => Raise DataError
  end.

Definition of_float64 (xs : list float) : list cell := map CFloat xs.

(** Rolling aggregation reads infinities as missing. *)
Definition prep_values (xs : list float) : list float :=
  map (fun x => if PrimFloat.is_infinity x then PrimFloat.nan else x) xs.

(** The [w] observations ending at position [i] (for [w <= i + 1]). *)
Definition window_at (w i : nat) (xs : list float) : list float :=
  firstn w (skipn (i + 1 - w) xs).

(** [Series.rolling(window=w)] with the default [min_periods = w]: the
    result at [i] is missing unless the trailing window holds [w]
    observations none of which is missing. *)
Definition rolling (w : nat) (agg : list float -> float) (xs : list float)
  : list float :=
  let vs := prep_values xs in
  map (fun i =>
         if (i + 1 <? w)%nat then PrimFloat.nan
         else let win := window_at w i vs in
              if existsb PrimFloat.is_nan win then PrimFloat.nan
              else agg win)
      (seq 0 (length xs)).

(** The window is summed from left to right. pandas keeps a running,
    compensated sum as the window slides; the two agree wherever the sums
    are exact. *)
Definition fsum (xs : list float) : float :=
  fold_left PrimFloat.add xs 0%float.

Definition mean (xs : list float) : float :=
  PrimFloat.div (fsum xs) (float_of_nat (length xs)).

(** Sample standard deviation ([ddof = 1]), in two passes over the
    window. pandas updates a running mean and sum of squares as the window
    slides, so the last bits can differ, and a window whose sum overflows
    is not missing here. *)
Definition std (xs : list float) : float :=
  let m := mean xs in
  let ss := fsum (map (fun x => let d := PrimFloat.sub x m in
                                PrimFloat.mul d d) xs) in
  PrimFloat.sqrt (PrimFloat.div ss (float_of_Z (Z.of_nat (length xs) - 1))).

Definition rolling_mean (w : nat) (col : list cell) : result (list cell) :=
  (xs <~ to_float64 col ;; Ok (of_float64 (rolling w mean xs)))%res.

Definition rolling_std (w : nat) (col : list cell) : result (list cell) :=
  (xs <~ to_float64 col ;; Ok (of_float64 (rolling w std xs)))%res.

(** Forward fill: [pct_change] pads missing values with the last
    observation before it divides (its default [fill_method], pad). *)
Fixpoint ffill_from (last : float) (xs : list float) : list float :=
  match xs with
  | [] => []
  | x :: rest =>
      if PrimFloat.is_nan x then last :: ffill_from last rest
      else x :: ffill_from x rest
  end.

Definition ffill (xs : list float) : list float := ffill_from PrimFloat.nan xs.

(** [Series.shift(1)] *)
Definition shift1 (xs : list float) : list float :=
  firstn (length xs) (PrimFloat.nan :: xs).

(** [Series.pct_change()]: [data / data.shift(1) - 1] on the padded data. *)
Definition pct_change (col : list cell) : result (list cell) :=
  (xs <~ to_float64 col ;;
   let data := ffill xs in
   Ok (of_float64
         (zip_with (fun a b => PrimFloat.sub (PrimFloat.div a b) 1%float)
                   data (shift1 data))))%res.

(** Row [i] has no missing value in any column. *)
Definition row_complete (cols : list (string * list cell)) (i : nat) : bool :=
  forallb (fun kc => match nth_error (snd kc) i with
                     | Some c => negb (isna c)
                     | None => true
                     end) cols.

Fixpoint keep_rows {A} (mask : list bool) (xs : list A) : list A :=
  match mask, xs with
  | b :: mask', x :: xs' =>
      if b then x :: keep_rows mask' xs' else keep_rows mask' xs'
  | _, _ => []
  end.

Definition dropna_mask (df : frame) : list bool :=
  map (row_complete (columns df)) (seq 0 (nrows df)).

(** [DataFrame.dropna()]: the rows with a missing value in any column are
    removed. *)
Definition dropna (df : frame) : frame :=
  let mask := dropna_mask df in
  Frame (index_name df)
        (keep_rows mask (index df))
        (map (fun kc => (fst kc, keep_rows mask (snd kc))) (columns df)).

End Pandas.

(** ** process_data, without its logging *)

(** The body of the [try] block of [process_data], line by line;
    [data.copy()] is the frame itself, frames being values. *)
Definition process_frame (data : frame) : result frame :=
  (let processed_data := data in
   close <~ getitem processed_data "Close" ;;
   ma5 <~ Pandas.rolling_mean 5 close ;;
   let processed_data := setitem processed_data "MA5" ma5 in
   close <~ getitem processed_data "Close" ;;
   ma20 <~ Pandas.rolling_mean 20 close ;;
   let processed_data := setitem processed_data "MA20" ma20 in
   close <~ getitem processed_data "Close" ;;
   daily_return <~ Pandas.pct_change close ;;
   let processed_data := setitem processed_data "Daily_Return" daily_return in
   ret_col <~ getitem processed_data "Daily_Return" ;;
   volatility <~ Pandas.rolling_std 20 ret_col ;;
   let processed_data := setitem processed_data "Volatility" volatility in
   Ok (Pandas.dropna processed_data))%res.

(** ** The world: file system, logger, provider *)

Inductive node : Type :=
| Dir
| File (content : string).

Inductive level : Type := INFO | WARNING | ERROR.

(** The logger's f-strings, one constructor per message. *)
Inductive message : Type :=
| FetchingData (ticker : string) (start_date end_date : Z)
| NoAnalystTargets (e : exn)
| FetchFailed (ticker : string) (e : exn)
| ProcessFailed (e : exn)
| DataSaved (filename : path)
| SaveFailed (e : exn)
| PipelineFailed (ticker : string) (e : exn).

Record world : Type := World {
  fs : gmap path node;
  log : list (level * message)
}.

(** The market-data provider (yfinance) and the clock. [history] is
    [Ticker(t).history(start, end)], [info] is [Ticker(t).info]; either may
    raise. *)
Record provider : Type := Provider {
  today : Z;
  history : string -> Z -> Z -> result frame;
  info : string -> result (gmap string pyval)
}.

(** How pandas prints a float64 and an index label in a CSV file. *)
Record formats : Type := Formats {
  repr_float : float -> string;
  str_date : Z -> string
}.

(** ** The state-and-exception monad of the methods *)

Definition M (A : Type) : Type := world -> result A * world.

Definition ret {A} (a : A) : M A := fun w => (Ok a, w).

Definition raise {A} (e : exn) : M A := fun w => (Raise e, w).

Definition bind {A B} (m : M A) (k : A -> M B) : M B :=
  fun w => match m w with
           | (Ok a, w') => k a w'
           | (Raise e, w') => (Raise e, w')
           end.

(** [try: body except Exception as e: handler e] *)
Definition try_except {A} (body : M A) (handler : exn -> M A) : M A :=
  fun w => match body w with
           | (Ok a, w') => (Ok a, w')
           | (Raise e, w') => handler e w'
           end.

Definition lift {A} (r : result A) : M A := fun w => (r, w).

Declare Scope monad_scope.
Delimit Scope monad_scope with M.
Notation "x <- m ;; k" := (bind m (fun x => k))
  (at level 100, m at next level, right associativity) : monad_scope.
Notation "m ;; k" := (bind m (fun _ => k))
  (at level 100, right associativity) : monad_scope.

Definition logger (lvl : level) (msg : message) : M unit :=
  fun w => (Ok tt, World (fs w) (log w ++ [(lvl, msg)])).

(** ** pathlib and the file system *)

Module Fs.

(** The empty path is the working directory, which exists. *)
Definition lookup (f : gmap path node) (p : path) : option node :=
  match p with
  | [] => Some Dir
  | _ => f !! p
  end.

Definition is_dir (f : gmap path node) (p : path) : bool :=
  match lookup f p with
  | Some Dir => true
  | _ => false
  end.

Definition parent (p : path) : path := removelast p.

(** [os.mkdir p] *)
Definition os_mkdir (p : path) : M unit :=
  fun w =>
    match p with
    | [] => (Raise (FileExistsError p), w)
    | _ =>
        match lookup (fs w) (parent p) with
        | None => (Raise (FileNotFoundError p), w)
        | Some (File _) => (Raise (NotADirectoryError p), w)
        | Some Dir =>
            match lookup (fs w) p with
            | Some _ => (Raise (FileExistsError p), w)
            | None => (Ok tt, World (<[p := Dir]> (fs w)) (log w))
            end
        end
    end.

(** [Path(p).mkdir(exist_ok=True)], with [parents] left at [False]: a
    missing parent is an error, an existing directory is accepted. *)
Definition mkdir_exist_ok (p : path) : M unit :=
  fun w =>
    match os_mkdir p w with
    | (Ok u, w') => (Ok u, w')
    | (Raise (FileNotFoundError q), w') => (Raise (FileNotFoundError q), w')
    | (Raise e, w') => if is_dir (fs w') p then (Ok tt, w') else (Raise e, w')
    end.

(** Open [p] for writing and write [content]: the parent must be a
    directory and [p] itself must not be one; an existing file is
    replaced. *)
Definition write_text (p : path) (content : string) : M unit :=
  fun w =>
    if is_dir (fs w) (parent p) then
      if is_dir (fs w) p then (Raise (IsADirectoryError p), w)
      else (Ok tt, World (<[p := File content]> (fs w)) (log w))
    else (Raise (OSError (parent p)), w).

End Fs.

(** ** pathlib: joining a path and a string

    A path is the list of its parts, as [PurePosixPath.parts] gives them;
    an absolute path starts with its root, which a world holds as a
    directory entry like any other. The join is lexical: a double dot
    stays a part of the path, and the file system above resolves neither
    double dots nor links. *)

Module Pathlib.

Definition slash : ascii := ascii_of_nat 47.

(** The pieces of a string between its slashes; [cur] holds the piece
    being read, newest character first. *)
Fixpoint split (cur : list ascii) (s : list ascii) : list string :=
  match s with
  | [] => [string_of_list_ascii (rev cur)]
  | c :: rest =>
      if Ascii.eqb c slash
      then string_of_list_ascii (rev cur) :: split [] rest
      else split (c :: cur) rest
  end.

(** Empty pieces and single dots are dropped. *)
Definition significant (piece : string) : bool :=
  negb (String.eqb piece "" || String.eqb piece ".").

Definition components (s : string) : path :=
  List.filter significant (split [] (list_ascii_of_string s)).

Fixpoint leading_slashes (s : list ascii) : nat :=
  match s with
  | c :: rest => if Ascii.eqb c slash then S (leading_slashes rest) else O
  | [] => O
  end.

(** The root of an absolute string: exactly two leading slashes are kept
    as they are, any other number of them is one. *)
Definition root (s : string) : option string :=
  match leading_slashes (list_ascii_of_string s) with
  | O => None
  | S (S O) => Some "//"
  | _ => Some "/"
  end.

(** [base / s]: an absolute [s] replaces [base], a relative one is added
    part by part. *)
Definition joinpath (base : path) (s : string) : path :=
  match root s with
  | Some r => r :: components s
  | None => base ++ components s
  end.

(** No slash in the string. *)
Definition plain (s : string) : bool :=
  forallb (fun c => negb (Ascii.eqb c slash)) (list_ascii_of_string s).

End Pathlib.

(** ** CSV text *)

Module Csv.

Definition comma : ascii := ascii_of_nat 44.
Definition dquote : ascii := ascii_of_nat 34.
Definition LF : ascii := ascii_of_nat 10.

(** The characters that make the writer quote a field: the delimiter,
    the quote and the characters of the line terminator, which is LF. A
    carriage return alone does not. *)
Definition special (c : ascii) : bool :=
  Ascii.eqb c comma || Ascii.eqb c dquote || Ascii.eqb c LF.

(** *** Writer: minimal quoting, doubled quotes, one LF per record *)

Fixpoint escape (s : list ascii) : list ascii :=
  match s with
  | [] => []
  | c :: rest =>
      if Ascii.eqb c dquote then dquote :: dquote :: escape rest
      else c :: escape rest
  end.

Definition quoted (s : list ascii) : list ascii :=
  dquote :: escape s ++ [dquote].

Definition write_field (s : list ascii) : list ascii :=
  if existsb special s then quoted s else s.

Fixpoint write_fields (fields : list (list ascii)) : list ascii :=
  match fields with
  | [] => [LF]
  | [f] => write_field f ++ [LF]
  | f :: rest => write_field f ++ comma :: write_fields rest
  end.

(** A record that is one empty field is written as two quotes, so that
    it is not a blank line. *)
Definition write_row (fields : list string) : list ascii :=
  match fields with
  | [f] => if String.eqb f "" then quoted [] ++ [LF]
           else write_fields [list_ascii_of_string f]
  | _ => write_fields (map list_ascii_of_string fields)
  end.

Definition write_table (rows : list (list string)) : string :=
  string_of_list_ascii (concat (map write_row rows)).

(** *** Reader: the state machine of a CSV reader for the same dialect

    The program only writes; the reader is what reads a written file back
    in the round-trip property. *)








(** *** Vocabulary of the reader's properties *)




End Csv.

(** ** DataFrame.to_csv *)

Section ToCsv.

Variable F : formats.

(** Missing values are written as the empty string. *)
Definition render_cell (c : cell) : string :=
  match c with
  | CFloat x => if PrimFloat.is_nan x then "" else repr_float F x
  | CInt n => pretty n
  | CStr s => s
  end.

Definition header_row (df : frame) : list string :=
  default "" (index_name df) :: map fst (columns df).

Definition data_row (df : frame) (i : nat) (d : Z) : list string :=
  str_date F d ::
  map (fun kc => match nth_error (snd kc) i with
                 | Some c => render_cell c
                 | None => ""
                 end) (columns df).

(** The table of texts [to_csv] writes: the header, then one record per
    row with the index label first. *)
Definition csv_table (df : frame) : list (list string) :=
  header_row df :: imap (data_row df) (index df).

(** [data.to_csv(filename)] *)
Definition to_csv (data : frame) (filename : path) : M unit :=
  Fs.write_text filename (Csv.write_table (csv_table data)).

End ToCsv.

(** ** StockDataProcessor *)

Record processor : Type := Processor { data_dir : path }.

(** [__init__]: the directory is made (one level), the logger configured. *)
Definition init (data_dir : path) : M processor :=
  (Fs.mkdir_exist_ok data_dir ;;
   ret (Processor data_dir))%M.

(** [end_date - timedelta(days=days_back)]: dates run from ordinal 1
    (0001-01-01) to 3652059 (9999-12-31). *)
Definition date_sub (d days : Z) : result Z :=
  let r := d - days in
  if Z.leb 1 r && Z.leb r 3652059 then Ok r else Raise OverflowError.

Definition dict_get (d : gmap string pyval) (key : string) (dflt : pyval) : pyval :=
  default dflt (d !! key).

Section Methods.

Variable P : provider.
Variable F : formats.
Variable self : processor.

Definition fetch_stock_data (ticker : string) (days_back : Z) : M frame :=
  try_except
    (let end_date := today P in
     start_date <- lift (date_sub end_date days_back) ;;
     logger INFO (FetchingData ticker start_date end_date) ;;
     hist_data <- lift (history P ticker start_date end_date) ;;
     hist_data <-
       try_except
         (stock_info <- lift (info P ticker) ;;
          let target_data := dict_get stock_info "targetMeanPrice" PyNone in
          if truthy target_data
          then ret (setitem_scalar hist_data "AnalystTargetPrice" target_data)
          else ret hist_data)
         (fun e => logger WARNING (NoAnalystTargets e) ;; ret hist_data) ;;
     ret hist_data)%M
    (fun e => logger ERROR (FetchFailed ticker e) ;; raise e)%M.

Definition process_data (data : frame) : M frame :=
  try_except
    (lift (process_frame data))
    (fun e => logger ERROR (ProcessFailed e) ;; raise e)%M.

Definition save_data (data : frame) (ticker : string) : M unit :=
  try_except
    (let filename :=
       Pathlib.joinpath (data_dir self) (String.append ticker "_stock_data.csv") in
     to_csv F data filename ;;
     logger INFO (DataSaved filename))%M
    (fun e => logger ERROR (SaveFailed e) ;; raise e)%M.

End Methods.

(** The methods [run_pipeline] reaches through [self]. *)
Record methods : Type := Methods {
  self_fetch_stock_data : string -> Z -> M frame;
  self_process_data : frame -> M frame;
  self_save_data : frame -> string -> M unit
}.

Definition run_pipeline (self : methods) (ticker : string) (days_back : Z)
  : M frame :=
  try_except
    (raw_data <- self_fetch_stock_data self ticker days_back ;;
     (* processed_data = self.process_data(raw_data) is commented out *)
     self_save_data self raw_data ticker ;;
     ret raw_data)%M
    (fun e => logger ERROR (PipelineFailed ticker e) ;; raise e)%M.

(** The methods of an instance of the class. *)
Definition StockDataProcessor (P : provider) (F : formats) (self : processor)
  : methods :=
  Methods (fetch_stock_data P) process_data (save_data F self).

(** The persister as one operation on a destination directory: the
    processor is constructed for the directory, which makes it, and
    [save_data] then writes, as in [main]'s run. *)
Definition save (F : formats) (series : frame) (ticker : string)
  (destination_dir : path) : M unit :=
  (self <- init destination_dir ;;
   save_data F self series ticker)%M.

(** ** Vocabulary of the properties *)

(** *** Frames and their cells *)

Definition derived_fields : list string :=
  ["MA5"; "MA20"; "Daily_Return"; "Volatility"].

(** The cell of column [key] in row [i]. *)
Definition cell_at (df : frame) (key : string) (i : nat) : option cell :=
  match lookup_column key (columns df) with
  | Some col => nth_error col i
  | None => None
  end.

(** The cell of [col] in row [i] is not missing. *)
Definition cell_ok (col : list cell) (i : nat) : bool :=
  match nth_error col i with
  | Some c => negb (isna c)
  | None => true
  end.

(** No cell of the frame is missing. *)
Definition no_missing (df : frame) : Prop :=
  Forall (fun kc => Forall (fun c => isna c = false) (snd kc)) (columns df).

Definition numeric_cell (c : cell) : bool :=
  match c with
  | CStr _ => false
  | _ => true
  end.

(** The frame has a [Close] column and it holds numbers only. *)
Definition close_is_numeric (df : frame) : bool :=
  match lookup_column "Close" (columns df) with
  | Some col => forallb numeric_cell col
  | None => false
  end.



(** The float64 values of a column (empty when the column is absent or not
    numeric). *)
Definition column_values (df : frame) (key : string) : list float :=
  match lookup_column key (columns df) with
  | Some col => match Pandas.to_float64 col with
                | Ok xs => xs
                | Raise _ => []
                end
  | None => []
  end.

(** The same value on every row. *)
Definition constant (xs : list float) : Prop :=
  forall x y, In x xs -> In y xs -> x = y.

(** Strictly increasing, and strictly decreasing, from each row to the
    next. *)
Fixpoint increasing (xs : list float) : bool :=
  match xs with
  | x :: (y :: _) as rest => PrimFloat.ltb x y && increasing rest
  | _ => true
  end.

Fixpoint decreasing (xs : list float) : bool :=
  match xs with
  | x :: (y :: _) as rest => PrimFloat.ltb y x && decreasing rest
  | _ => true
  end.

(** *** process_data in one piece *)

(** [pct_change] on float64 values. *)
Definition daily_returns (xs : list float) : list float :=
  let data := Pandas.ffill xs in
  zip_with (fun a b => PrimFloat.sub (PrimFloat.div a b) 1%float)
           data (Pandas.shift1 data).

(** The frame [process_data] hands to [dropna], from the values [xs] of the
    [Close] column. *)
Definition with_indicators (data : frame) (xs : list float) : frame :=
  let p1 := setitem data "MA5" (Pandas.of_float64 (Pandas.rolling 5 Pandas.mean xs)) in
  let p2 := setitem p1 "MA20" (Pandas.of_float64 (Pandas.rolling 20 Pandas.mean xs)) in
  let p3 := setitem p2 "Daily_Return" (Pandas.of_float64 (daily_returns xs)) in
  setitem p3 "Volatility"
    (Pandas.of_float64 (Pandas.rolling 20 Pandas.std (daily_returns xs))).

(** The four derived columns of that frame, by name. *)
Definition derived_column (xs : list float) (key : string) : list cell :=
  if String.eqb key "MA5" then Pandas.of_float64 (Pandas.rolling 5 Pandas.mean xs)
  else if String.eqb key "MA20" then Pandas.of_float64 (Pandas.rolling 20 Pandas.mean xs)
  else if String.eqb key "Daily_Return" then Pandas.of_float64 (daily_returns xs)
  else Pandas.of_float64 (Pandas.rolling 20 Pandas.std (daily_returns xs)).

(** Row by row: are the four derived cells all present? *)
Definition indicator_mask (xs : list float) : list bool :=
  map (fun i => forallb (fun key => cell_ok (derived_column xs key) i)
                        derived_fields)
      (seq 0 (length xs)).

(** *** Runs *)

Definition failed {A} (r : result A * world) : Prop :=
  exists e w', r = (Raise e, w').

(** The first entry every fetch logs. *)
Definition fetching_entry (P : provider) (ticker : string) (start_date : Z)
  : level * message :=
  (INFO, FetchingData ticker start_date (today P)).

Definition target_price (d : gmap string pyval) : pyval :=
  dict_get d "targetMeanPrice" PyNone.

(** The analyst-target lookup fails: the call raises, or it returns no
    target (the key is absent or holds None). *)
Definition lookup_fails (r : result (gmap string pyval)) : Prop :=
  match r with
  | Raise _ => True
  | Ok d => target_price d = PyNone
  end.

(** [self.data_dir / f"{ticker}_stock_data.csv"] *)
Definition csv_path (self : processor) (ticker : string) : path :=
  Pathlib.joinpath (data_dir self) (String.append ticker "_stock_data.csv").

(** Every entry of the file system lies in a directory. *)
Definition consistent (f : gmap path node) : Prop :=
  forall p n, f !! p = Some n -> Fs.is_dir f (Fs.parent p) = true.


Definition column_names (df : frame) : list string := map fst (columns df).

(** *** Text in cells *)






(** ** Example inputs *)

(** A frame that is well formed, numeric and three rows long. *)
Definition three_days : frame :=
  Frame (Some "Date") [738000; 738001; 738002]
        [("Close", [CFloat 10%float; CFloat 11%float; CFloat 12%float]);
         ("Volume", [CInt 500; CInt 600; CInt 700])].

(** Closes 100, 101, ..., 124 on 25 consecutive days. *)
Definition closes_100_124 : list float :=
  map (fun i => float_of_Z (100 + Z.of_nat i)) (seq 0 25).

Definition series25 : frame :=
  Frame (Some "Date")
        (map (fun i => 738000 + Z.of_nat i) (seq 0 25))
        [("Open", map CFloat closes_100_124);
         ("High", map CFloat closes_100_124);
         ("Low", map CFloat closes_100_124);
         ("Close", map CFloat closes_100_124);
         ("Volume", map (fun i => CInt (1000 + Z.of_nat i)) (seq 0 25))].

(** [close[t] / close[t-1] - 1] for closes 100 + t. *)
Definition scenario_return (t : Z) : float :=
  PrimFloat.sub (PrimFloat.div (float_of_Z (100 + t)) (float_of_Z (99 + t)))
                1%float.

(** What the provider returns for a symbol without data: the usual
    columns, no row. *)
Definition empty_series : frame :=
  Frame (Some "Date") []
        [("Open", []); ("High", []); ("Low", []); ("Close", []); ("Volume", [])].

(** A provider whose metadata has no target price. *)
Definition quiet_provider : provider :=
  Provider 738000 (fun _ _ _ => Ok three_days) (fun _ => Ok ∅).

(** A provider whose metadata lookup raises. *)
Definition failing_provider : provider :=
  Provider 738000 (fun _ _ _ => Ok three_days)
           (fun _ => Raise (ProviderError "HTTP 404")).

(** A provider with a target price of 250.5. *)
Definition target_provider : provider :=
  Provider 738000 (fun _ _ _ => Ok three_days)
           (fun _ => Ok {[ "targetMeanPrice" := PyFloat 250.5%float ]}).

(** A provider without data for the symbol. *)
Definition delisted_provider : provider :=
  Provider 738000 (fun _ _ _ => Ok empty_series) (fun _ => Ok ∅).

(** An empty file system and an empty log. *)
Definition fresh_world : world := World ∅ [].

(** A world in which the default directory exists. *)
Definition ready_world : world := World {[ ["stock_data"] := Dir ]} [].

(** A rendering of floats for the examples: mantissa and binary exponent,
    both in decimal and exact. *)
Definition float_text (x : float) : string :=
  if PrimFloat.is_nan x then "nan"
  else if PrimFloat.is_infinity x then
         (if PrimFloat.ltb x 0%float then "-inf" else "inf")
  else
    let '(m, e) := PrimFloat.frshiftexp (PrimFloat.abs x) in
    String.append (if PrimFloat.ltb x 0%float then "-" else "")
      (String.append (pretty (Uint63.to_Z (PrimFloat.normfr_mantissa m)))
         (String.append "p" (pretty (Uint63.to_Z e - 2101 - 53)))).

(** Dates print as their ordinal. *)
Definition plain_formats : formats := Formats float_text (fun d => pretty d).

(** ** main *)

(** [DataFrame.head()]: the first five rows. *)
Definition frame_head (df : frame) : frame :=
  Frame (index_name df)
        (firstn 5 (index df))
        (map (fun kc => (fst kc, firstn 5 (snd kc))) (columns df)).

(** What [main] prints, one constructor per [print]. *)
Inductive printed : Type :=
| Succeeded (ticker : string)
| FirstRowsTitle
| Rows (df : frame)
| ErrorOccurred (e : exn).

(** [main]: the processor is constructed outside the [try], the pipeline
    runs inside it for AAPL and 18 days. The value returned is what was
    printed, in order. *)
Definition main (P : provider) (F : formats) : M (list printed) :=
  (processor <- init ["stock_data"] ;;
   let ticker := "AAPL" in
   let days_back := 18 in
   try_except
     (data <- run_pipeline (StockDataProcessor P F processor) ticker days_back ;;
      ret [Succeeded ticker; FirstRowsTitle; Rows (frame_head data)])
     (fun e => ret [ErrorOccurred e]))%M.

(** *** More vocabulary *)

(** The 25-day series with a missing Volume on its twenty-third date. *)
Definition gap_series : frame :=
  Frame (Some "Date")
        (map (fun i => 738000 + Z.of_nat i) (seq 0 25))
        [("Close", map CFloat closes_100_124);
         ("Volume",
          map (fun i => if Nat.eqb i 22 then CFloat PrimFloat.nan
                        else CFloat (float_of_Z (1000 + Z.of_nat i)))
              (seq 0 25))].



(** The default directory with a file for MSFT in it. *)
Definition msft_world : world :=
  World (<[["stock_data"; "MSFT_stock_data.csv"] := File "Date,Close"]>
           (fs ready_world)) [].


(** * Properties *)

(** Runs a method down to its matches on results. *)
Ltac run_monad :=
  unfold try_except, bind, lift, ret, raise, logger; cbn [fst snd fs log].

(** ** Columns *)

Lemma lookup_assign_eq key col cols :
  lookup_column key (assign_column key col cols) = Some col.
Proof.
  induction cols as [|[k c] rest IH]; simpl.
  - now rewrite String.eqb_refl.
  - destruct (String.eqb k key) eqn:E; simpl; rewrite E; auto.
Qed.

Lemma lookup_assign_ne key key' col cols :
  key <> key' ->
  lookup_column key' (assign_column key col cols) = lookup_column key' cols.
Proof.
  intros Hne. induction cols as [|[k c] rest IH]; simpl.
  - destruct (String.eqb key key') eqn:E; auto.
    apply String.eqb_eq in E. contradiction.
  - destruct (String.eqb k key) eqn:E; simpl.
    + apply String.eqb_eq in E. subst k.
      destruct (String.eqb key key') eqn:E'; auto.
      apply String.eqb_eq in E'. contradiction.
    + destruct (String.eqb k key'); auto.
Qed.

Lemma lookup_column_In key col cols :
  lookup_column key cols = Some col -> In (key, col) cols.
Proof.
  induction cols as [|[k c] rest IH]; simpl; [discriminate|].
  destruct (String.eqb k key) eqn:E.
  - apply String.eqb_eq in E. intros [= ->]. subst. now left.
  - intros H. right. auto.
Qed.

Lemma In_assign_column key col cols kc :
  In kc (assign_column key col cols) -> kc = (key, col) \/ In kc cols.
Proof.
  induction cols as [|[k c] rest IH]; simpl.
  - intros [H|[]]; auto.
  - destruct (String.eqb k key) eqn:E; simpl.
    + apply String.eqb_eq in E. subst k. intros [H|H]; auto.
    + intros [H|H]; auto. destruct (IH H); auto.
Qed.

Lemma wf_setitem df key col :
  wf_frame df -> length col = nrows df -> wf_frame (setitem df key col).
Proof.
  unfold wf_frame, setitem, nrows. simpl. intros Hwf Hlen.
  apply List.Forall_forall. intros kc Hin.
  apply In_assign_column in Hin as [->|Hin]; auto.
  rewrite List.Forall_forall in Hwf. auto.
Qed.

Lemma wf_lookup df key col :
  wf_frame df -> lookup_column key (columns df) = Some col ->
  length col = nrows df.
Proof.
  unfold wf_frame. rewrite List.Forall_forall. intros Hwf Hl.
  apply lookup_column_In in Hl. apply (Hwf _ Hl).
Qed.

(** ** Numeric conversion *)

Lemma to_float64_of_float64 xs :
  Pandas.to_float64 (Pandas.of_float64 xs) = Ok xs.
Proof.
  induction xs as [|x xs IH]; simpl; auto. now rewrite IH.
Qed.

Lemma to_float64_numeric col :
  forallb numeric_cell col = true -> exists xs, Pandas.to_float64 col = Ok xs.
Proof.
  induction col as [|c col IH]; simpl; [eauto|].
  intros H. apply andb_true_iff in H as [Hc Hr].
  destruct (IH Hr) as [xs Hxs].
  destruct c; simpl in *; try discriminate; rewrite Hxs; simpl; eauto.
Qed.


Lemma to_float64_length col xs :
  Pandas.to_float64 col = Ok xs -> length xs = length col.
Proof.
  revert xs. induction col as [|c col IH]; simpl; intros xs H.
  - now inversion H.
  - destruct c; try discriminate;
      (destruct (Pandas.to_float64 col) as [ys|] eqn:E; simpl in H;
       [inversion H; subst; simpl; f_equal; auto | discriminate]).
Qed.

(** ** Rolling windows *)

Lemma rolling_length w agg xs :
  length (Pandas.rolling w agg xs) = length xs.
Proof. unfold Pandas.rolling. now rewrite length_map, length_seq. Qed.

Lemma rolling_lead w agg xs i :
  (i < length xs)%nat -> (i + 1 < w)%nat ->
  nth_error (Pandas.rolling w agg xs) i = Some PrimFloat.nan.
Proof.
  intros Hi Hw. unfold Pandas.rolling.
  rewrite nth_error_map, nth_error_seq.
  apply Nat.ltb_lt in Hi. rewrite Hi. simpl.
  apply Nat.ltb_lt in Hw. now rewrite Hw.
Qed.

Lemma ffill_from_length last xs :
  length (Pandas.ffill_from last xs) = length xs.
Proof.
  revert last. induction xs as [|x xs IH]; simpl; intros last; auto.
  destruct (PrimFloat.is_nan x); simpl; now rewrite IH.
Qed.

Lemma shift1_length xs : length (Pandas.shift1 xs) = length xs.
Proof. unfold Pandas.shift1. rewrite length_firstn. simpl. lia. Qed.

Lemma daily_returns_length xs : length (daily_returns xs) = length xs.
Proof.
  unfold daily_returns. rewrite length_zip_with.
  rewrite shift1_length. unfold Pandas.ffill.
  rewrite ffill_from_length. lia.
Qed.

Lemma of_float64_length xs : length (Pandas.of_float64 xs) = length xs.
Proof. apply length_map. Qed.

(** ** dropna *)

Lemma row_complete_spec cols i :
  Pandas.row_complete cols i = true <->
  (forall kc, In kc cols -> cell_ok (snd kc) i = true).
Proof. unfold Pandas.row_complete. now rewrite forallb_forall. Qed.

Lemma row_complete_cell cols i key col c :
  Pandas.row_complete cols i = true -> In (key, col) cols ->
  nth_error col i = Some c -> isna c = false.
Proof.
  intros H Hin Hn. rewrite row_complete_spec in H.
  specialize (H _ Hin). unfold cell_ok in H. simpl in H. rewrite Hn in H.
  now apply negb_true_iff in H.
Qed.

Lemma row_incomplete cols i key col c :
  In (key, col) cols -> nth_error col i = Some c -> isna c = true ->
  Pandas.row_complete cols i = false.
Proof.
  intros Hin Hn Hc. destruct (Pandas.row_complete cols i) eqn:E; auto.
  rewrite (row_complete_cell _ _ _ _ _ E Hin Hn) in Hc. discriminate.
Qed.

Lemma dropna_mask_length df : length (Pandas.dropna_mask df) = nrows df.
Proof. unfold Pandas.dropna_mask. now rewrite length_map, length_seq. Qed.

Lemma dropna_mask_nth df i b :
  nth_error (Pandas.dropna_mask df) i = Some b ->
  b = Pandas.row_complete (columns df) i.
Proof.
  unfold Pandas.dropna_mask. rewrite nth_error_map, nth_error_seq.
  destruct (i <? nrows df)%nat; simpl; congruence.
Qed.

Lemma keep_rows_Forall {A} (P : A -> Prop) mask (xs : list A) :
  (forall i x, nth_error mask i = Some true -> nth_error xs i = Some x -> P x) ->
  Forall P (Pandas.keep_rows mask xs).
Proof.
  revert xs. induction mask as [|b mask IH]; intros [|x xs] H; simpl; auto.
  assert (Hrest : Forall P (Pandas.keep_rows mask xs)).
  { apply IH. intros i y Hm Hx. apply (H (S i) y); auto. }
  destruct b; auto. constructor; auto. apply (H 0%nat x); auto.
Qed.

Lemma keep_rows_length_eq {A B} mask (xs : list A) (ys : list B) :
  length xs = length ys ->
  length (Pandas.keep_rows mask xs) = length (Pandas.keep_rows mask ys).
Proof.
  revert xs ys. induction mask as [|b mask IH]; intros [|x xs] [|y ys] H;
    simpl in *; auto; try discriminate.
  injection H as H. destruct b; simpl; auto.
Qed.

Lemma keep_rows_none {A} mask (xs : list A) :
  Forall (fun b => b = false) mask -> Pandas.keep_rows mask xs = [].
Proof.
  intros H. revert xs. induction H as [|b mask Hb _ IH]; intros [|x xs];
    simpl; auto. subst b. apply IH.
Qed.

Lemma keep_rows_skip {A} n mask (xs : list A) :
  Pandas.keep_rows (repeat false n ++ mask) xs =
  Pandas.keep_rows mask (skipn n xs).
Proof.
  revert xs. induction n as [|n IH]; intros xs; simpl; auto.
  destruct xs as [|x xs]; simpl; auto. now destruct mask.
Qed.

Lemma keep_rows_all {A} n (xs : list A) :
  (length xs <= n)%nat -> Pandas.keep_rows (repeat true n) xs = xs.
Proof.
  revert xs. induction n as [|n IH]; intros [|x xs] H; simpl in *; auto; try lia.
  f_equal. apply IH. lia.
Qed.

Lemma lookup_column_map f key cols :
  lookup_column key (map (fun kc => (fst kc, f (snd kc))) cols) =
  option_map f (lookup_column key cols).
Proof.
  induction cols as [|[k c] rest IH]; simpl; auto.
  destruct (String.eqb k key); auto.
Qed.

Lemma lookup_dropna key df :
  lookup_column key (columns (Pandas.dropna df)) =
  option_map (Pandas.keep_rows (Pandas.dropna_mask df))
             (lookup_column key (columns df)).
Proof. unfold Pandas.dropna. simpl. apply lookup_column_map. Qed.

Lemma wf_dropna df : wf_frame df -> wf_frame (Pandas.dropna df).
Proof.
  unfold wf_frame, Pandas.dropna, nrows. simpl.
  rewrite !List.Forall_forall. intros Hwf kc Hin.
  apply in_map_iff in Hin as (kc' & <- & Hin'). simpl.
  apply keep_rows_length_eq. apply (Hwf _ Hin').
Qed.

(** ** The normal form of process_frame *)

Lemma process_frame_eq data col xs :
  lookup_column "Close" (columns data) = Some col ->
  Pandas.to_float64 col = Ok xs ->
  process_frame data = Ok (Pandas.dropna (with_indicators data xs)).
Proof.
  intros Hc Hx.
  unfold process_frame, getitem, Pandas.rolling_mean, Pandas.rolling_std,
    Pandas.pct_change, with_indicators.
  rewrite Hc. cbn [rbind]. rewrite Hx. cbn [rbind setitem columns].
  rewrite lookup_assign_ne by discriminate. rewrite Hc. cbn [rbind].
  rewrite Hx. cbn [rbind setitem columns].
  rewrite !lookup_assign_ne by discriminate. rewrite Hc. cbn [rbind].
  rewrite Hx. cbn [rbind setitem columns].
  rewrite lookup_assign_eq. cbn [rbind].
  rewrite to_float64_of_float64. cbn [rbind]. reflexivity.
Qed.



Lemma process_frame_numeric data :
  close_is_numeric data = true ->
  exists col xs,
    lookup_column "Close" (columns data) = Some col /\
    Pandas.to_float64 col = Ok xs /\
    process_frame data = Ok (Pandas.dropna (with_indicators data xs)).
Proof.
  unfold close_is_numeric.
  destruct (lookup_column "Close" (columns data)) as [col|] eqn:Hc;
    [|discriminate].
  intros Hn. destruct (to_float64_numeric _ Hn) as [xs Hx].
  exists col, xs. repeat split; auto. now apply process_frame_eq with col.
Qed.

Lemma with_indicators_index data xs :
  index (with_indicators data xs) = index data.
Proof. reflexivity. Qed.

Lemma wf_with_indicators data xs :
  wf_frame data -> length xs = nrows data ->
  wf_frame (with_indicators data xs).
Proof.
  intros Hwf Hlen. unfold with_indicators.
  repeat (apply wf_setitem;
          [| cbn [setitem nrows index];
             rewrite of_float64_length, ?rolling_length, ?daily_returns_length;
             exact Hlen]).
  exact Hwf.
Qed.

Lemma lookup_derived data xs key :
  In key derived_fields ->
  lookup_column key (columns (with_indicators data xs)) =
  Some (derived_column xs key).
Proof.
  unfold derived_fields, with_indicators. cbn [setitem columns].
  intros [<-|[<-|[<-|[<-|[]]]]]; unfold derived_column;
    cbn [String.eqb Ascii.eqb Bool.eqb];
    rewrite ?(lookup_assign_ne "Volatility") by discriminate;
    rewrite ?(lookup_assign_ne "Daily_Return") by discriminate;
    rewrite ?(lookup_assign_ne "MA20") by discriminate;
    apply lookup_assign_eq.
Qed.

Lemma lookup_original data xs key :
  ~ In key derived_fields ->
  lookup_column key (columns (with_indicators data xs)) =
  lookup_column key (columns data).
Proof.
  intros Hk. unfold with_indicators. cbn [setitem columns].
  rewrite !lookup_assign_ne; auto;
    intros <-; apply Hk; unfold derived_fields; simpl; auto.
Qed.

Lemma derived_column_length xs key :
  length (derived_column xs key) = length xs.
Proof.
  unfold derived_column.
  repeat match goal with |- context [if ?b then _ else _] => destruct b end;
    rewrite of_float64_length, ?rolling_length, ?daily_returns_length; auto.
Qed.

(** ** Rows after dropna *)

(** Every row that survives [dropna] has its derived cells present. *)
Lemma process_rows_defined data xs i key :
  length xs = nrows data ->
  (i < nrows (Pandas.dropna (with_indicators data xs)))%nat ->
  In key derived_fields ->
  exists c, cell_at (Pandas.dropna (with_indicators data xs)) key i = Some c /\
            isna c = false.
Proof.
  intros Hlen Hi Hkey. set (p4 := with_indicators data xs) in *.
  unfold cell_at. rewrite lookup_dropna. unfold p4.
  rewrite (lookup_derived _ _ _ Hkey). cbn [option_map]. fold p4.
  set (kept := Pandas.keep_rows (Pandas.dropna_mask p4) (derived_column xs key)).
  assert (Hk : length kept = nrows (Pandas.dropna p4)).
  { unfold kept, nrows, Pandas.dropna. cbn [index].
    apply keep_rows_length_eq.
    rewrite derived_column_length. exact Hlen. }
  destruct (nth_error kept i) as [c|] eqn:Hn.
  - exists c. split; auto.
    assert (HF : Forall (fun c => isna c = false) kept).
    { apply keep_rows_Forall. intros j x Hm Hxj.
      apply dropna_mask_nth in Hm. symmetry in Hm.
      apply (row_complete_cell _ _ key (derived_column xs key) _ Hm); auto.
      apply lookup_column_In. unfold p4. now apply lookup_derived. }
    rewrite List.Forall_forall in HF. apply HF.
    now apply nth_error_In with i.
  - apply nth_error_None in Hn. lia.
Qed.

(** With fewer than 20 rows, MA20 is missing on every row and nothing
    survives. *)
Lemma process_short_empty data xs :
  length xs = nrows data -> (nrows data < 20)%nat ->
  index (Pandas.dropna (with_indicators data xs)) = [] /\
  Forall (fun kc => snd kc = [])
         (columns (Pandas.dropna (with_indicators data xs))).
Proof.
  intros Hlen Hshort. set (p4 := with_indicators data xs) in *.
  assert (Hmask : Forall (fun b => b = false) (Pandas.dropna_mask p4)).
  { unfold Pandas.dropna_mask. apply List.Forall_forall. intros b Hb.
    apply in_map_iff in Hb as (i & <- & Hi). apply in_seq in Hi.
    unfold p4, nrows in Hi. rewrite with_indicators_index in Hi.
    unfold nrows in Hshort, Hlen.
    apply (row_incomplete _ _ "MA20" (derived_column xs "MA20")
             (CFloat PrimFloat.nan)).
    - apply lookup_column_In. unfold p4. apply lookup_derived.
      unfold derived_fields; simpl; auto.
    - unfold derived_column. cbn [String.eqb Ascii.eqb Bool.eqb].
      unfold Pandas.of_float64. rewrite nth_error_map.
      rewrite rolling_lead; auto; lia.
    - reflexivity. }
  unfold Pandas.dropna. cbn [index columns]. split.
  - now apply keep_rows_none.
  - apply List.Forall_forall. intros kc Hin.
    apply in_map_iff in Hin as (kc' & <- & _). cbn [snd].
    now apply keep_rows_none.
Qed.

Lemma close_values_length data col xs :
  wf_frame data ->
  lookup_column "Close" (columns data) = Some col ->
  Pandas.to_float64 col = Ok xs ->
  length xs = nrows data.
Proof.
  intros Hwf Hc Hx. rewrite (to_float64_length _ _ Hx).
  now apply wf_lookup with "Close".
Qed.

(** ** C2 *)

(** C2. On every well-formed input whose Close column is numeric,
    [process_data]'s computation returns a frame in which every row has
    each of MA5, MA20, Daily_Return and Volatility present and not missing
    (NaN); when the input has fewer than 20 rows the output has no row at
    all (empty index, every column empty). *)
Theorem transform_rows_defined (data : frame) :
  wf_frame data ->
  close_is_numeric data = true ->
  exists out,
    process_frame data = Ok out /\
    (forall i key, (i < nrows out)%nat -> In key derived_fields ->
       exists c, cell_at out key i = Some c /\ isna c = false) /\
    ((nrows data < 20)%nat ->
       index out = [] /\ Forall (fun kc => snd kc = []) (columns out)).
Proof.
  intros Hwf Hnum.
  destruct (process_frame_numeric _ Hnum) as (col & xs & Hc & Hx & Hp).
  pose proof (close_values_length _ _ _ Hwf Hc Hx) as Hlen.
  eexists. split; [exact Hp|]. split.
  - intros i key. now apply process_rows_defined.
  - now apply process_short_empty.
Qed.

Lemma transform_rows_defined_witness :
  exists out,
    process_frame three_days = Ok out /\
    (forall i key, (i < nrows out)%nat -> In key derived_fields ->
       exists c, cell_at out key i = Some c /\ isna c = false) /\
    ((nrows three_days < 20)%nat ->
       index out = [] /\ Forall (fun kc => snd kc = []) (columns out)).
Proof.
  apply (transform_rows_defined three_days).
  - unfold wf_frame. repeat constructor.
  - reflexivity.
Defined.

(** ** The 25-day scenario *)

Lemma no_missing_cell_ok df kc i :
  no_missing df -> In kc (columns df) -> cell_ok (snd kc) i = true.
Proof.
  unfold no_missing. rewrite List.Forall_forall. intros H Hin.
  specialize (H _ Hin). rewrite List.Forall_forall in H.
  unfold cell_ok. destruct (nth_error (snd kc) i) as [c|] eqn:E; auto.
  apply nth_error_In in E. now rewrite (H _ E).
Qed.

(** On an input without missing values, [dropna] keeps exactly the rows
    whose four derived cells are present. *)
Lemma dropna_mask_indicators data xs :
  no_missing data -> length xs = nrows data ->
  Pandas.dropna_mask (with_indicators data xs) = indicator_mask xs.
Proof.
  intros Hclean Hlen. unfold Pandas.dropna_mask, indicator_mask.
  unfold nrows at 1. rewrite with_indicators_index. fold (nrows data).
  rewrite <- Hlen. apply map_ext. intros i.
  apply eq_true_iff_eq. rewrite row_complete_spec, forallb_forall. split.
  - intros H key Hkey.
    apply (H (key, derived_column xs key)).
    apply lookup_column_In. now apply lookup_derived.
  - intros H kc Hin. unfold with_indicators in Hin. cbn [setitem columns] in Hin.
    repeat (apply In_assign_column in Hin as [->|Hin]);
      try (now apply no_missing_cell_ok with data).
    + apply (H "Volatility"). unfold derived_fields; simpl; auto.
    + apply (H "Daily_Return"). unfold derived_fields; simpl; auto.
    + apply (H "MA20"). unfold derived_fields; simpl; auto.
    + apply (H "MA5"). unfold derived_fields; simpl; auto.
Qed.

Lemma scenario_mask :
  indicator_mask closes_100_124 = repeat false 20 ++ repeat true 5.
Proof. vm_compute. reflexivity. Qed.

Lemma scenario_keep {A} (xs : list A) :
  length xs = 25%nat ->
  Pandas.keep_rows (indicator_mask closes_100_124) xs = skipn 20 xs.
Proof.
  intros H. rewrite scenario_mask, keep_rows_skip.
  apply keep_rows_all. rewrite length_skipn. lia.
Qed.

(** The scenario on any frame: 25 rows, no missing value, and a Close
    column whose values are 100, 101, ..., 124. *)
Lemma scenario_process data col :
  wf_frame data ->
  lookup_column "Close" (columns data) = Some col ->
  Pandas.to_float64 col = Ok closes_100_124 ->
  no_missing data ->
  nrows data = 25%nat /\
  process_frame data =
    Ok (Pandas.dropna (with_indicators data closes_100_124)) /\
  Pandas.dropna_mask (with_indicators data closes_100_124) =
    indicator_mask closes_100_124.
Proof.
  intros Hwf Hc Hx Hclean.
  assert (Hlen : length closes_100_124 = nrows data).
  { rewrite (to_float64_length _ _ Hx). now apply wf_lookup with "Close". }
  split; [rewrite <- Hlen; reflexivity|]. split.
  - now apply process_frame_eq with col.
  - now apply dropna_mask_indicators.
Qed.

(** ** C3 *)

(** C3 (as amended). On the 25-day series with Close 100, 101, ..., 124 and
    no missing value, [process_data] returns exactly 25 - 20 = 5 rows, the
    last 5 rows of the input: its index is the last 5 dates and every input
    column is cut down to its last 5 cells. *)
Theorem transform_scenario_last_five (data : frame) (col : list cell) :
  wf_frame data ->
  lookup_column "Close" (columns data) = Some col ->
  Pandas.to_float64 col = Ok closes_100_124 ->
  no_missing data ->
  exists out,
    process_frame data = Ok out /\
    nrows out = 5%nat /\
    index out = skipn 20 (index data) /\
    (forall key c, ~ In key derived_fields ->
       lookup_column key (columns data) = Some c ->
       lookup_column key (columns out) = Some (skipn 20 c)).
Proof.
  intros Hwf Hc Hx Hclean.
  destruct (scenario_process _ _ Hwf Hc Hx Hclean) as (Hn & Hp & Hm).
  eexists. split; [exact Hp|].
  assert (Hidx : index (Pandas.dropna (with_indicators data closes_100_124))
                 = skipn 20 (index data)).
  { unfold Pandas.dropna. cbn [index]. rewrite Hm, with_indicators_index.
    now apply scenario_keep. }
  split; [|split]; auto.
  - unfold nrows. rewrite Hidx, length_skipn. fold (nrows data). lia.
  - intros key c Hkey Hl. rewrite lookup_dropna, lookup_original, Hl by auto.
    cbn [option_map]. f_equal. rewrite Hm. apply scenario_keep.
    rewrite <- Hn. now apply wf_lookup with key.
Qed.

Lemma transform_scenario_last_five_witness :
  exists out,
    process_frame series25 = Ok out /\
    nrows out = 5%nat /\
    index out = skipn 20 (index series25) /\
    (forall key c, ~ In key derived_fields ->
       lookup_column key (columns series25) = Some c ->
       lookup_column key (columns out) = Some (skipn 20 c)).
Proof.
  apply (transform_scenario_last_five series25 (map CFloat closes_100_124)).
  - unfold wf_frame. repeat constructor.
  - reflexivity.
  - vm_compute. reflexivity.
  - unfold no_missing. repeat constructor.
Defined.

(** On the 25-day series the output does not have 6 rows. *)
Lemma transform_scenario_not_six :
  ~ (exists out, process_frame series25 = Ok out /\ nrows out = 6%nat).
Proof.
  intros (out & Hp & Hn). vm_compute in Hp.
  injection Hp as <-. vm_compute in Hn. discriminate.
Qed.

(** ** C4 *)

Lemma scenario_derived data col key :
  wf_frame data ->
  lookup_column "Close" (columns data) = Some col ->
  Pandas.to_float64 col = Ok closes_100_124 ->
  no_missing data ->
  In key derived_fields ->
  column_values (Pandas.dropna (with_indicators data closes_100_124)) key =
  column_values
    (Frame None []
       [(key, Pandas.keep_rows (indicator_mask closes_100_124)
                               (derived_column closes_100_124 key))]) key.
Proof.
  intros Hwf Hc Hx Hclean Hkey.
  destruct (scenario_process _ _ Hwf Hc Hx Hclean) as (_ & _ & Hm).
  unfold column_values. rewrite lookup_dropna, lookup_derived, Hm by auto.
  cbn [option_map columns lookup_column]. now rewrite String.eqb_refl.
Qed.

(** C4 (as amended). On the 25-day series with Close 100, 101, ..., 124 and
    no missing value, the output's Daily_Return is [close[t]/close[t-1] - 1]
    for t = 20..24, which is not constant but strictly decreasing from row
    to row, and MA5 (118, ..., 122) and MA20 (110.5, ..., 114.5) are both
    strictly increasing. *)
Theorem transform_scenario_indicators (data : frame) (col : list cell) :
  wf_frame data ->
  lookup_column "Close" (columns data) = Some col ->
  Pandas.to_float64 col = Ok closes_100_124 ->
  no_missing data ->
  exists out,
    process_frame data = Ok out /\
    column_values out "Daily_Return" = map scenario_return [20; 21; 22; 23; 24] /\
    decreasing (column_values out "Daily_Return") = true /\
    column_values out "MA5" =
      [118%float; 119%float; 120%float; 121%float; 122%float] /\
    increasing (column_values out "MA5") = true /\
    column_values out "MA20" =
      [110.5%float; 111.5%float; 112.5%float; 113.5%float; 114.5%float] /\
    increasing (column_values out "MA20") = true.
Proof.
  intros Hwf Hc Hx Hclean.
  destruct (scenario_process _ _ Hwf Hc Hx Hclean) as (_ & Hp & _).
  eexists. split; [exact Hp|].
  rewrite !(scenario_derived data col) by (auto; unfold derived_fields; simpl; auto).
  vm_compute. repeat split; reflexivity.
Qed.

Lemma transform_scenario_indicators_witness :
  exists out,
    process_frame series25 = Ok out /\
    column_values out "Daily_Return" = map scenario_return [20; 21; 22; 23; 24] /\
    decreasing (column_values out "Daily_Return") = true /\
    column_values out "MA5" =
      [118%float; 119%float; 120%float; 121%float; 122%float] /\
    increasing (column_values out "MA5") = true /\
    column_values out "MA20" =
      [110.5%float; 111.5%float; 112.5%float; 113.5%float; 114.5%float] /\
    increasing (column_values out "MA20") = true.
Proof.
  apply (transform_scenario_indicators series25 (map CFloat closes_100_124)).
  - unfold wf_frame. repeat constructor.
  - reflexivity.
  - vm_compute. reflexivity.
  - unfold no_missing. repeat constructor.
Defined.

(** On the 25-day series Daily_Return is not the same on every output
    row. *)
Lemma transform_scenario_return_not_constant :
  ~ (exists out,
       process_frame series25 = Ok out /\
       constant (column_values out "Daily_Return") /\
       increasing (column_values out "MA5") = true /\
       increasing (column_values out "MA20") = true).
Proof.
  intros (out & Hp & Hconst & _).
  vm_compute in Hp. injection Hp as <-.
  specialize (Hconst (scenario_return 20) (scenario_return 21)).
  assert (E : scenario_return 20 = scenario_return 21).
  { apply Hconst; vm_compute; auto. }
  apply (f_equal (fun x => PrimFloat.eqb x (scenario_return 21))) in E.
  vm_compute in E. discriminate.
Qed.

(** ** C5 *)






(** ** fetch_stock_data *)

Section Fetch.

Variable P : provider.
Variables (ticker : string) (days_back start_date : Z) (hist : frame).
Hypothesis Hdate : date_sub (today P) days_back = Ok start_date.
Hypothesis Hhist : history P ticker start_date (today P) = Ok hist.

Lemma fetch_info_raises w e :
  info P ticker = Raise e ->
  fetch_stock_data P ticker days_back w =
    (Ok hist,
     World (fs w)
           (log w ++ [fetching_entry P ticker start_date;
                      (WARNING, NoAnalystTargets e)])).
Proof.
  intros Hi. unfold fetch_stock_data. run_monad.
  rewrite Hdate, Hhist, Hi. cbn [fs log]. now rewrite <- app_assoc.
Qed.

Lemma fetch_info_falsy w d :
  info P ticker = Ok d -> truthy (target_price d) = false ->
  fetch_stock_data P ticker days_back w =
    (Ok hist, World (fs w) (log w ++ [fetching_entry P ticker start_date])).
Proof.
  intros Hi Ht. unfold fetch_stock_data. run_monad.
  rewrite Hdate, Hhist, Hi. fold (target_price d). now rewrite Ht.
Qed.

Lemma fetch_info_truthy w d :
  info P ticker = Ok d -> truthy (target_price d) = true ->
  fetch_stock_data P ticker days_back w =
    (Ok (setitem_scalar hist "AnalystTargetPrice" (target_price d)),
     World (fs w) (log w ++ [fetching_entry P ticker start_date])).
Proof.
  intros Hi Ht. unfold fetch_stock_data. run_monad.
  rewrite Hdate, Hhist, Hi. fold (target_price d). now rewrite Ht.
Qed.

(** Whatever the analyst lookup does, the fetch returns a series with
    the provider's index, and logs no error. *)
Lemma fetch_succeeds w :
  exists out w',
    fetch_stock_data P ticker days_back w = (Ok out, w') /\
    index out = index hist /\
    index_name out = index_name hist /\
    fs w' = fs w /\
    exists added, log w' = log w ++ fetching_entry P ticker start_date :: added /\
                  Forall (fun lm => fst lm <> ERROR) added.
Proof.
  destruct (info P ticker) as [d|e] eqn:Hi.
  - destruct (truthy (target_price d)) eqn:Ht.
    + rewrite (fetch_info_truthy w d Hi Ht). do 2 eexists.
      split; [reflexivity|]. cbn [index index_name setitem_scalar setitem fs log].
      do 3 (split; [reflexivity|]). exists []. split; auto.
    + rewrite (fetch_info_falsy w d Hi Ht). do 2 eexists.
      split; [reflexivity|]. cbn [fs log].
      do 3 (split; [reflexivity|]). exists []. split; auto.
  - rewrite (fetch_info_raises w e Hi). do 2 eexists.
    split; [reflexivity|]. cbn [fs log].
    do 3 (split; [reflexivity|]).
    exists [(WARNING, NoAnalystTargets e)]. split; [reflexivity|].
    constructor; [discriminate|constructor].
Qed.

End Fetch.

(** ** C6 *)

(** C6 (as amended). When the history request succeeds: if the analyst
    lookup raises, the fetch returns the provider's series unchanged, logs
    one warning after its start message, and raises nothing; if the lookup
    returns no target, the fetch returns the series unchanged as well, but
    logs no warning. *)
Theorem fetch_survives_failed_lookup
  (P : provider) (ticker : string) (days_back start_date : Z) (hist : frame)
  (w : world) :
  date_sub (today P) days_back = Ok start_date ->
  history P ticker start_date (today P) = Ok hist ->
  (forall e, info P ticker = Raise e ->
     fetch_stock_data P ticker days_back w =
       (Ok hist,
        World (fs w)
              (log w ++ [(INFO, FetchingData ticker start_date (today P));
                         (WARNING, NoAnalystTargets e)]))) /\
  (forall d, info P ticker = Ok d -> target_price d = PyNone ->
     fetch_stock_data P ticker days_back w =
       (Ok hist,
        World (fs w)
              (log w ++ [(INFO, FetchingData ticker start_date (today P))]))).
Proof.
  intros Hdate Hhist. split.
  - intros e Hi. now apply fetch_info_raises.
  - intros d Hi Ht.
    apply (fetch_info_falsy P ticker days_back start_date hist Hdate Hhist w d Hi).
    now rewrite Ht.
Qed.

Lemma fetch_survives_failed_lookup_witness :
  (forall e, info failing_provider "AAPL" = Raise e ->
     fetch_stock_data failing_provider "AAPL" 18 fresh_world =
       (Ok three_days,
        World (fs fresh_world)
              (log fresh_world ++
                 [(INFO, FetchingData "AAPL" 737982 (today failing_provider));
                  (WARNING, NoAnalystTargets e)]))) /\
  (forall d, info failing_provider "AAPL" = Ok d -> target_price d = PyNone ->
     fetch_stock_data failing_provider "AAPL" 18 fresh_world =
       (Ok three_days,
        World (fs fresh_world)
              (log fresh_world ++
                 [(INFO, FetchingData "AAPL" 737982 (today failing_provider))]))).
Proof.
  apply (fetch_survives_failed_lookup failing_provider "AAPL" 18 737982
           three_days fresh_world); reflexivity.
Defined.

(** The lookup returns no target, the fetch succeeds, and no warning is in
    the log. *)
Lemma fetch_no_target_no_warning :
  lookup_fails (info quiet_provider "AAPL") /\
  exists w',
    fetch_stock_data quiet_provider "AAPL" 18 fresh_world = (Ok three_days, w') /\
    forall m, ~ In (WARNING, m) (log w').
Proof.
  split; [reflexivity|].
  eexists. split.
  - apply (fetch_info_falsy quiet_provider "AAPL" 18 737982 three_days
             eq_refl eq_refl fresh_world ∅); reflexivity.
  - cbn [log fresh_world app]. intros m [H|[]]. discriminate.
Qed.

(** ** C10 *)

Lemma lookup_setitem_scalar df key v :
  lookup_column key (columns (setitem_scalar df key v)) =
  Some (repeat (cell_of_pyval v) (nrows df)).
Proof. unfold setitem_scalar, setitem. cbn [columns]. apply lookup_assign_eq. Qed.

(** C10. When the lookup succeeds, the fetch returns the provider's series
    untouched if targetMeanPrice is falsy (None or absent, 0, 0.0), and
    otherwise the series with an AnalystTargetPrice column holding that one
    value on every row; for a provider series without such a column, the
    result has the column exactly when the value is truthy. *)
Theorem analyst_target_attached_iff_truthy
  (P : provider) (ticker : string) (days_back start_date : Z) (hist : frame)
  (d : gmap string pyval) (w : world) :
  date_sub (today P) days_back = Ok start_date ->
  history P ticker start_date (today P) = Ok hist ->
  info P ticker = Ok d ->
  lookup_column "AnalystTargetPrice" (columns hist) = None ->
  exists out,
    fetch_stock_data P ticker days_back w =
      (Ok out,
       World (fs w)
             (log w ++ [(INFO, FetchingData ticker start_date (today P))])) /\
    (truthy (target_price d) = false -> out = hist) /\
    (target_price d = PyNone \/ target_price d = PyInt 0 \/
     target_price d = PyFloat 0%float -> out = hist) /\
    (truthy (target_price d) = true ->
       index out = index hist /\
       lookup_column "AnalystTargetPrice" (columns out) =
         Some (repeat (cell_of_pyval (target_price d)) (nrows hist))) /\
    (lookup_column "AnalystTargetPrice" (columns out) <> None <->
     truthy (target_price d) = true).
Proof.
  intros Hdate Hhist Hi Hnone.
  destruct (truthy (target_price d)) eqn:Ht.
  - eexists.
    split; [exact (fetch_info_truthy P ticker days_back start_date hist
                     Hdate Hhist w d Hi Ht)|].
    split; [discriminate|]. split.
    { intros [H|[H|H]]; rewrite H in Ht; discriminate. }
    split.
    { intros _. split; [reflexivity|apply lookup_setitem_scalar]. }
    rewrite lookup_setitem_scalar. split; [reflexivity|discriminate].
  - eexists.
    split; [exact (fetch_info_falsy P ticker days_back start_date hist
                     Hdate Hhist w d Hi Ht)|].
    split; [reflexivity|]. split; [reflexivity|].
    split; [discriminate|]. rewrite Hnone. split; [congruence|discriminate].
Qed.

Lemma analyst_target_attached_iff_truthy_witness :
  exists out,
    fetch_stock_data target_provider "AAPL" 18 fresh_world =
      (Ok out,
       World (fs fresh_world)
             (log fresh_world ++
                [(INFO, FetchingData "AAPL" 737982 (today target_provider))])) /\
    (truthy (target_price {[ "targetMeanPrice" := PyFloat 250.5%float ]}) = false ->
       out = three_days) /\
    (target_price {[ "targetMeanPrice" := PyFloat 250.5%float ]} = PyNone \/
     target_price {[ "targetMeanPrice" := PyFloat 250.5%float ]} = PyInt 0 \/
     target_price {[ "targetMeanPrice" := PyFloat 250.5%float ]} = PyFloat 0%float ->
       out = three_days) /\
    (truthy (target_price {[ "targetMeanPrice" := PyFloat 250.5%float ]}) = true ->
       index out = index three_days /\
       lookup_column "AnalystTargetPrice" (columns out) =
         Some (repeat
                 (cell_of_pyval
                    (target_price {[ "targetMeanPrice" := PyFloat 250.5%float ]}))
                 (nrows three_days))) /\
    (lookup_column "AnalystTargetPrice" (columns out) <> None <->
     truthy (target_price {[ "targetMeanPrice" := PyFloat 250.5%float ]}) = true).
Proof.
  apply (analyst_target_attached_iff_truthy target_provider "AAPL" 18 737982
           three_days {[ "targetMeanPrice" := PyFloat 250.5%float ]}
           fresh_world); reflexivity.
Defined.

(** ** C7 *)

(** C7. When the provider returns zero rows, the fetch returns a series
    with zero rows, raises nothing and logs no error; and [process_data] on
    a series with zero rows (with its Close column) returns a series with
    zero rows, raises nothing and logs nothing. *)
Theorem empty_series_no_error
  (P : provider) (ticker : string) (days_back start_date : Z)
  (hist data : frame) (w : world) :
  date_sub (today P) days_back = Ok start_date ->
  history P ticker start_date (today P) = Ok hist ->
  nrows hist = 0%nat ->
  wf_frame data ->
  nrows data = 0%nat ->
  lookup_column "Close" (columns data) <> None ->
  (exists raw w',
     fetch_stock_data P ticker days_back w = (Ok raw, w') /\
     nrows raw = 0%nat /\
     fs w' = fs w /\
     exists added,
       log w' = log w ++ (INFO, FetchingData ticker start_date (today P)) :: added /\
       Forall (fun lm => fst lm <> ERROR) added) /\
  (exists out,
     process_data data w = (Ok out, w) /\
     nrows out = 0%nat /\
     Forall (fun kc => snd kc = []) (columns out)).
Proof.
  intros Hdate Hhist Hrows Hwf Hzero Hclose. split.
  - destruct (fetch_succeeds P ticker days_back start_date hist Hdate Hhist w)
      as (raw & w' & Hf & Hidx & _ & Hfs & Hlog).
    exists raw, w'. repeat split; auto.
    unfold nrows in *. now rewrite Hidx.
  - destruct (lookup_column "Close" (columns data)) as [col|] eqn:Hc;
      [|contradiction].
    assert (Hcol : col = []).
    { apply length_zero_iff_nil. rewrite <- Hzero. now apply wf_lookup with "Close". }
    subst col.
    assert (Hp : process_frame data = Ok (Pandas.dropna (with_indicators data [])))
      by now apply process_frame_eq with [].
    destruct (process_short_empty data []) as [Hi Hcols];
      [now rewrite Hzero | rewrite Hzero; lia |].
    eexists. split; [|split; [|exact Hcols]].
    + unfold process_data. run_monad. now rewrite Hp.
    + unfold nrows. now rewrite Hi.
Qed.

Lemma empty_series_no_error_witness :
  (exists raw w',
     fetch_stock_data delisted_provider "ZZZZ" 18 fresh_world = (Ok raw, w') /\
     nrows raw = 0%nat /\
     fs w' = fs fresh_world /\
     exists added,
       log w' = log fresh_world ++
                (INFO, FetchingData "ZZZZ" 737982 (today delisted_provider)) :: added /\
       Forall (fun lm => fst lm <> ERROR) added) /\
  (exists out,
     process_data empty_series fresh_world = (Ok out, fresh_world) /\
     nrows out = 0%nat /\
     Forall (fun kc => snd kc = []) (columns out)).
Proof.
  apply (empty_series_no_error delisted_provider "ZZZZ" 18 737982
           empty_series empty_series fresh_world).
  - reflexivity.
  - reflexivity.
  - reflexivity.
  - unfold wf_frame. repeat constructor.
  - reflexivity.
  - simpl. discriminate.
Defined.

(** ** pathlib *)

Lemma chars_append a b :
  list_ascii_of_string (String.append a b) =
  list_ascii_of_string a ++ list_ascii_of_string b.
Proof. induction a as [|c a IH]; simpl; auto. now rewrite IH. Qed.

Lemma append_inj_l a b suffix :
  String.append a suffix = String.append b suffix -> a = b.
Proof.
  intros H. apply (f_equal list_ascii_of_string) in H.
  rewrite !chars_append in H. apply app_inv_tail in H.
  apply (f_equal string_of_list_ascii) in H.
  now rewrite !string_of_list_ascii_of_string in H.
Qed.

Lemma split_plain cur l :
  forallb (fun c => negb (Ascii.eqb c Pathlib.slash)) l = true ->
  Pathlib.split cur l = [string_of_list_ascii (rev cur ++ l)].
Proof.
  revert cur. induction l as [|c l IH]; intros cur H; simpl in *.
  - now rewrite app_nil_r.
  - apply andb_true_iff in H as [Hc Hl]. apply negb_true_iff in Hc.
    rewrite Hc, IH by exact Hl. simpl. now rewrite <- app_assoc.
Qed.

Lemma leading_slashes_plain l :
  forallb (fun c => negb (Ascii.eqb c Pathlib.slash)) l = true ->
  Pathlib.leading_slashes l = O.
Proof.
  destruct l as [|c l]; simpl; auto. intros H.
  apply andb_true_iff in H as [Hc _]. apply negb_true_iff in Hc.
  now rewrite Hc.
Qed.

(** A name without a slash, neither empty nor a dot, is one more part. *)
Lemma joinpath_plain base name :
  Pathlib.plain name = true -> Pathlib.significant name = true ->
  Pathlib.joinpath base name = base ++ [name].
Proof.
  unfold Pathlib.plain, Pathlib.joinpath, Pathlib.root, Pathlib.components.
  intros Hp Hs. rewrite (leading_slashes_plain _ Hp), (split_plain _ _ Hp).
  simpl rev. simpl app at 1. rewrite string_of_list_ascii_of_string.
  simpl. now rewrite Hs.
Qed.

Lemma file_name_plain ticker :
  Pathlib.plain ticker = true ->
  Pathlib.plain (String.append ticker "_stock_data.csv") = true.
Proof.
  unfold Pathlib.plain. intros H. rewrite chars_append, forallb_app, H.
  reflexivity.
Qed.

Lemma file_name_significant ticker :
  Pathlib.significant (String.append ticker "_stock_data.csv") = true.
Proof.
  unfold Pathlib.significant. apply negb_true_iff, orb_false_iff.
  split; apply String.eqb_neq; intros H;
    apply (f_equal (fun t => length (list_ascii_of_string t))) in H;
    rewrite chars_append, length_app in H; simpl in H; lia.
Qed.

(** For a ticker without a slash the file lies in [data_dir]. *)
Lemma csv_path_plain self ticker :
  Pathlib.plain ticker = true ->
  csv_path self ticker =
  data_dir self ++ [String.append ticker "_stock_data.csv"].
Proof.
  intros H. unfold csv_path. apply joinpath_plain.
  - now apply file_name_plain.
  - apply file_name_significant.
Qed.

Lemma parent_csv_path self ticker :
  Pathlib.plain ticker = true ->
  Fs.parent (csv_path self ticker) = data_dir self.
Proof.
  intros H. rewrite (csv_path_plain _ _ H). unfold Fs.parent.
  apply removelast_last.
Qed.

Lemma parent_ne (dir : path) : dir <> [] -> Fs.parent dir <> dir.
Proof.
  intros Hne Heq. unfold Fs.parent in Heq.
  pose proof (app_removelast_last EmptyString Hne) as H.
  rewrite Heq in H. apply (f_equal (@length string)) in H.
  rewrite length_app in H. simpl in H. lia.
Qed.

(** What is not a directory is not the working directory. *)
Lemma not_dir_not_root f p : Fs.is_dir f p = false -> p <> [].
Proof. intros H ->. discriminate. Qed.

(** ** save_data *)

(** Where the file's directory exists and the file's path is not a
    directory, the file is written (replacing what was there) and the save
    is logged. *)
Lemma save_data_ok F self data ticker w :
  Fs.is_dir (fs w) (Fs.parent (csv_path self ticker)) = true ->
  Fs.is_dir (fs w) (csv_path self ticker) = false ->
  save_data F self data ticker w =
    (Ok tt,
     World (<[csv_path self ticker := File (Csv.write_table (csv_table F data))]> (fs w))
           (log w ++ [(INFO, DataSaved (csv_path self ticker))])).
Proof.
  intros Hdir Hfile. unfold save_data, to_csv, Fs.write_text.
  fold (csv_path self ticker). run_monad.
  rewrite Hdir, Hfile. reflexivity.
Qed.

(** Without the file's directory, the save raises and only the log
    changes. *)
Lemma save_data_no_dir F self data ticker w :
  Fs.is_dir (fs w) (Fs.parent (csv_path self ticker)) = false ->
  save_data F self data ticker w =
    (Raise (OSError (Fs.parent (csv_path self ticker))),
     World (fs w)
           (log w ++ [(ERROR, SaveFailed (OSError (Fs.parent (csv_path self ticker))))])).
Proof.
  intros Hdir. unfold save_data, to_csv, Fs.write_text.
  fold (csv_path self ticker). run_monad.
  rewrite Hdir. reflexivity.
Qed.

(** ** C1 *)

(** C1. For every ticker and days_back, [run_pipeline] calls the fetch
    first; if it raises, the pipeline logs and re-raises without saving;
    otherwise it hands the fetched series itself to the save and, when the
    save returns, returns that same series. The result does not depend on
    [process_data]: replacing it by any other method changes nothing, so it
    is never called. For the class's own methods, where the directory of
    the ticker's file exists, the file that is written holds the CSV text
    of the fetched series. *)
Theorem pipeline_returns_raw_series
  (self : methods) (ticker : string) (days_back : Z) (w : world) :
  run_pipeline self ticker days_back w =
    match self_fetch_stock_data self ticker days_back w with
    | (Ok raw, w1) =>
        match self_save_data self raw ticker w1 with
        | (Ok _, w2) => (Ok raw, w2)
        | (Raise e, w2) =>
            (Raise e, World (fs w2) (log w2 ++ [(ERROR, PipelineFailed ticker e)]))
        end
    | (Raise e, w1) =>
        (Raise e, World (fs w1) (log w1 ++ [(ERROR, PipelineFailed ticker e)]))
    end
  /\ (forall transform,
        run_pipeline
          (Methods (self_fetch_stock_data self) transform (self_save_data self))
          ticker days_back w =
        run_pipeline self ticker days_back w)
  /\ (forall P F this raw w1,
        fetch_stock_data P ticker days_back w = (Ok raw, w1) ->
        Fs.is_dir (fs w1) (Fs.parent (csv_path this ticker)) = true ->
        Fs.is_dir (fs w1) (csv_path this ticker) = false ->
        exists w2,
          run_pipeline (StockDataProcessor P F this) ticker days_back w =
            (Ok raw, w2) /\
          fs w2 !! csv_path this ticker =
            Some (File (Csv.write_table (csv_table F raw)))).
Proof.
  split; [|split].
  - unfold run_pipeline. run_monad.
    destruct (self_fetch_stock_data self ticker days_back w) as [[raw|e] w1];
      auto.
    destruct (self_save_data self raw ticker w1) as [[[]|e] w2]; auto.
  - intros transform. reflexivity.
  - intros P F this raw w1 Hf Hdir Hfile.
    eexists. unfold run_pipeline, StockDataProcessor. run_monad.
    cbn [self_fetch_stock_data self_save_data].
    rewrite Hf, (save_data_ok F this raw ticker w1 Hdir Hfile).
    split; [reflexivity|]. cbn [fs]. apply lookup_insert_eq.
Qed.

(** ** C8 *)

Lemma is_dir_insert_dir f p :
  p <> [] -> Fs.is_dir (<[p := Dir]> f) p = true.
Proof.
  intros Hp. unfold Fs.is_dir, Fs.lookup.
  destruct p; [contradiction|]. now rewrite lookup_insert_eq.
Qed.

Lemma absent_child f dir name :
  consistent f -> dir <> [] -> f !! dir = None -> f !! (dir ++ [name]) = None.
Proof.
  intros Hc Hd Hnone. destruct (f !! (dir ++ [name])) as [n|] eqn:E; auto.
  apply Hc in E. unfold Fs.parent in E. rewrite removelast_last in E.
  destruct dir as [|d0 dir']; [contradiction|].
  unfold Fs.is_dir, Fs.lookup in E. now rewrite Hnone in E.
Qed.

(** C8 (as amended). When the destination directory does not exist:
    if its parent is an existing directory, the constructor makes the
    directory (that one level) and, for a ticker without a path separator,
    [save_data] then writes the file in it and logs the save; if its
    parent does not exist either, the constructor raises
    FileNotFoundError, and nothing is made or written. *)
Theorem save_creates_one_level
  (F : formats) (series : frame) (ticker : string) (dir : path) (w : world) :
  consistent (fs w) ->
  dir <> [] ->
  fs w !! dir = None ->
  (Fs.is_dir (fs w) (Fs.parent dir) = true ->
   Pathlib.plain ticker = true ->
     save F series ticker dir w =
       (Ok tt,
        World (<[dir ++ [String.append ticker "_stock_data.csv"] :=
                   File (Csv.write_table (csv_table F series))]>
                 (<[dir := Dir]> (fs w)))
              (log w ++
                 [(INFO, DataSaved (dir ++ [String.append ticker "_stock_data.csv"]))]))) /\
  (Fs.lookup (fs w) (Fs.parent dir) = None ->
     save F series ticker dir w = (Raise (FileNotFoundError dir), w)).
Proof.
  intros Hcons Hdir Habsent.
  assert (Hlk : Fs.lookup (fs w) dir = None).
  { unfold Fs.lookup. destruct dir; [contradiction|exact Habsent]. }
  split.
  - intros Hparent Hplain.
    pose proof (csv_path_plain (Processor dir) ticker Hplain) as Hpath.
    cbn [data_dir] in Hpath.
    unfold save, init, Fs.mkdir_exist_ok, Fs.os_mkdir.
    run_monad. destruct dir as [|d0 dir']; [contradiction|].
    unfold Fs.is_dir in Hparent.
    destruct (Fs.lookup (fs w) (Fs.parent (d0 :: dir'))) as [[|c]|] eqn:E;
      try discriminate.
    rewrite Hlk.
    rewrite save_data_ok.
    + now rewrite Hpath.
    + rewrite Hpath. cbn [fs]. unfold Fs.parent. rewrite removelast_last.
      now apply is_dir_insert_dir.
    + rewrite Hpath. cbn [fs]. unfold Fs.is_dir, Fs.lookup.
      destruct ((d0 :: dir') ++ [String.append ticker "_stock_data.csv"])
        as [|c0 cs] eqn:Ec; [discriminate|].
      rewrite lookup_insert_ne.
      * rewrite <- Ec. now rewrite absent_child.
      * rewrite <- Ec. intros Heq.
        apply (f_equal (@length string)) in Heq.
        rewrite length_app in Heq. simpl in Heq. lia.
  - intros Hparent. unfold save, init, Fs.mkdir_exist_ok, Fs.os_mkdir.
    run_monad. destruct dir as [|d0 dir']; [contradiction|].
    rewrite Hparent. destruct w; reflexivity.
Qed.

Lemma fresh_world_consistent : consistent (fs fresh_world).
Proof. intros p n H. cbn in H. rewrite lookup_empty in H. discriminate. Qed.

Lemma save_creates_one_level_witness :
  save plain_formats three_days "AAPL" ["stock_data"] fresh_world =
    (Ok tt,
     World (<[["stock_data"; "AAPL_stock_data.csv"] :=
                File (Csv.write_table (csv_table plain_formats three_days))]>
              (<[["stock_data"] := Dir]> (fs fresh_world)))
           (log fresh_world ++
              [(INFO, DataSaved ["stock_data"; "AAPL_stock_data.csv"])])).
Proof.
  apply (save_creates_one_level plain_formats three_days "AAPL"
           ["stock_data"] fresh_world).
  - intros p n H. cbn in H. rewrite lookup_empty in H. discriminate.
  - discriminate.
  - reflexivity.
  - reflexivity.
  - reflexivity.
Defined.

(** Neither the directory nor its parent exists: nothing is made, the
    save fails. *)
Lemma save_missing_parent_fails :
  fs fresh_world !! ["reports"; "stock_data"] = None /\
  fs fresh_world !! ["reports"] = None /\
  save plain_formats three_days "AAPL" ["reports"; "stock_data"] fresh_world =
    (Raise (FileNotFoundError ["reports"; "stock_data"]), fresh_world).
Proof. repeat split. Qed.

(** ** CSV: reading back what was written *)

Module CsvFacts.
Import Csv.

















End CsvFacts.

(** ** C9 *)










(** * Further properties of the methods *)

(** ** fetch_stock_data: failures and what it leaves alone *)

Lemma date_sub_raises d days e :
  date_sub d days = Raise e -> e = OverflowError.
Proof.
  unfold date_sub. destruct (Z.leb 1 (d - days) && Z.leb (d - days) 3652059);
    congruence.
Qed.

Lemma fetch_date_overflow P ticker days_back w :
  date_sub (today P) days_back = Raise OverflowError ->
  fetch_stock_data P ticker days_back w =
    (Raise OverflowError,
     World (fs w) (log w ++ [(ERROR, FetchFailed ticker OverflowError)])).
Proof.
  intros Hd. unfold fetch_stock_data. run_monad. now rewrite Hd.
Qed.

Lemma fetch_history_raises P ticker days_back start_date e w :
  date_sub (today P) days_back = Ok start_date ->
  history P ticker start_date (today P) = Raise e ->
  fetch_stock_data P ticker days_back w =
    (Raise e,
     World (fs w)
           (log w ++ [fetching_entry P ticker start_date;
                      (ERROR, FetchFailed ticker e)])).
Proof.
  intros Hd Hh. unfold fetch_stock_data. run_monad.
  rewrite Hd, Hh. cbn [fs log]. now rewrite <- app_assoc.
Qed.

(** X1. The fetch raises exactly when the start date is out of the
    calendar's range or the history request raises; a failing analyst
    lookup never makes it fail. In the first case nothing is requested and
    the overflow is logged as the fetch error; in the second the provider's
    exception is logged after the start message and re-raised unchanged. *)
Theorem fetch_fails_iff
  (P : provider) (ticker : string) (days_back : Z) (w : world) :
  (failed (fetch_stock_data P ticker days_back w) <->
   date_sub (today P) days_back = Raise OverflowError \/
   exists start_date e,
     date_sub (today P) days_back = Ok start_date /\
     history P ticker start_date (today P) = Raise e) /\
  (date_sub (today P) days_back = Raise OverflowError ->
   fetch_stock_data P ticker days_back w =
     (Raise OverflowError,
      World (fs w) (log w ++ [(ERROR, FetchFailed ticker OverflowError)]))) /\
  (forall start_date e,
     date_sub (today P) days_back = Ok start_date ->
     history P ticker start_date (today P) = Raise e ->
     fetch_stock_data P ticker days_back w =
       (Raise e,
        World (fs w)
              (log w ++ [(INFO, FetchingData ticker start_date (today P));
                         (ERROR, FetchFailed ticker e)]))).
Proof.
  split; [|split].
  - split.
    + intros (e & w' & Hf).
      destruct (date_sub (today P) days_back) as [start_date|e0] eqn:Hd.
      * right. exists start_date.
        destruct (history P ticker start_date (today P)) as [hist|e1] eqn:Hh.
        -- destruct (fetch_succeeds P ticker days_back start_date hist Hd Hh w)
             as (out & w1 & Hok & _). congruence.
        -- eauto.
      * left. now rewrite (date_sub_raises _ _ _ Hd).
    + intros [Hd|(start_date & e & Hd & Hh)].
      * rewrite (fetch_date_overflow _ _ _ _ Hd). unfold failed. eauto.
      * rewrite (fetch_history_raises _ _ _ _ _ _ Hd Hh). unfold failed. eauto.
  - apply fetch_date_overflow.
  - intros start_date e. apply fetch_history_raises.
Qed.

(** X2. Whatever the provider does, the fetch leaves the file system as it
    was and only appends to the log, at most two entries. *)
Theorem fetch_leaves_files
  (P : provider) (ticker : string) (days_back : Z) (w : world) :
  fs (snd (fetch_stock_data P ticker days_back w)) = fs w /\
  exists added,
    log (snd (fetch_stock_data P ticker days_back w)) = log w ++ added /\
    (length added <= 2)%nat.
Proof.
  destruct (date_sub (today P) days_back) as [start_date|e0] eqn:Hd.
  - destruct (history P ticker start_date (today P)) as [hist|e1] eqn:Hh.
    + destruct (info P ticker) as [d|e] eqn:Hi.
      * destruct (truthy (target_price d)) eqn:Ht.
        -- rewrite (fetch_info_truthy P ticker days_back start_date hist Hd Hh w d Hi Ht).
           split; [reflexivity|]. eexists. split; [reflexivity|]. simpl. lia.
        -- rewrite (fetch_info_falsy P ticker days_back start_date hist Hd Hh w d Hi Ht).
           split; [reflexivity|]. eexists. split; [reflexivity|]. simpl. lia.
      * rewrite (fetch_info_raises P ticker days_back start_date hist Hd Hh w e Hi).
        split; [reflexivity|]. eexists. split; [reflexivity|]. simpl. lia.
    + rewrite (fetch_history_raises _ _ _ _ _ w Hd Hh).
      split; [reflexivity|]. eexists. split; [reflexivity|]. simpl. lia.
  - rewrite (date_sub_raises _ _ _ Hd) in Hd.
    rewrite (fetch_date_overflow _ _ _ w Hd).
    split; [reflexivity|]. eexists. split; [reflexivity|]. simpl. lia.
Qed.

Lemma wf_setitem_scalar df key v :
  wf_frame df -> wf_frame (setitem_scalar df key v).
Proof.
  intros H. unfold setitem_scalar. apply wf_setitem; auto.
  apply repeat_length.
Qed.

(** X3. When the history request succeeds, the fetched series is the
    provider's: same index and index name, every column other than
    AnalystTargetPrice untouched, and well formed if the provider's series
    is. *)
Theorem fetch_keeps_provider_data
  (P : provider) (ticker : string) (days_back start_date : Z) (hist : frame)
  (w : world) :
  date_sub (today P) days_back = Ok start_date ->
  history P ticker start_date (today P) = Ok hist ->
  exists out w',
    fetch_stock_data P ticker days_back w = (Ok out, w') /\
    index out = index hist /\
    index_name out = index_name hist /\
    (forall key, key <> "AnalystTargetPrice" ->
       lookup_column key (columns out) = lookup_column key (columns hist)) /\
    (wf_frame hist -> wf_frame out).
Proof.
  intros Hd Hh.
  destruct (info P ticker) as [d|e] eqn:Hi;
    [destruct (truthy (target_price d)) eqn:Ht|].
  - rewrite (fetch_info_truthy P ticker days_back start_date hist Hd Hh w d Hi Ht).
    do 2 eexists. split; [reflexivity|].
    split; [reflexivity|]. split; [reflexivity|]. split.
    + intros key Hkey. unfold setitem_scalar, setitem. cbn [columns].
      apply lookup_assign_ne. congruence.
    + apply wf_setitem_scalar.
  - rewrite (fetch_info_falsy P ticker days_back start_date hist Hd Hh w d Hi Ht).
    do 2 eexists. split; [reflexivity|]. repeat split; auto.
  - rewrite (fetch_info_raises P ticker days_back start_date hist Hd Hh w e Hi).
    do 2 eexists. split; [reflexivity|]. repeat split; auto.
Qed.

Lemma fetch_keeps_provider_data_witness :
  exists out w',
    fetch_stock_data target_provider "AAPL" 18 fresh_world = (Ok out, w') /\
    index out = index three_days /\
    index_name out = index_name three_days /\
    (forall key, key <> "AnalystTargetPrice" ->
       lookup_column key (columns out) = lookup_column key (columns three_days)) /\
    (wf_frame three_days -> wf_frame out).
Proof.
  apply (fetch_keeps_provider_data target_provider "AAPL" 18 737982
           three_days fresh_world); reflexivity.
Defined.

(** ** process_data: which rows come out *)

Lemma float_of_spec (x : float) (s : SpecFloat.spec_float) :
  Prim2SF x = s -> x = SF2Prim s.
Proof. intros <-. symmetry. apply SF2Prim_Prim2SF. Qed.

Lemma div_nan_r (x : float) : PrimFloat.div x PrimFloat.nan = PrimFloat.nan.
Proof.
  apply float_of_spec with (s := SpecFloat.S754_nan).
  rewrite div_spec. destruct (Prim2SF x); reflexivity.
Qed.

Lemma sub_nan_l (y : float) : PrimFloat.sub PrimFloat.nan y = PrimFloat.nan.
Proof.
  apply float_of_spec with (s := SpecFloat.S754_nan).
  rewrite sub_spec. destruct (Prim2SF y); reflexivity.
Qed.

(** The first return has nothing before it. *)
Lemma daily_returns_head x xs :
  exists rest, daily_returns (x :: xs) = PrimFloat.nan :: rest.
Proof.
  unfold daily_returns, Pandas.ffill. cbn [Pandas.ffill_from].
  destruct (PrimFloat.is_nan x);
    unfold Pandas.shift1; cbn [length firstn zip_with];
    rewrite div_nan_r, sub_nan_l; eauto.
Qed.

Lemma rolling_at w agg xs i :
  (i < length xs)%nat -> (w <= i + 1)%nat ->
  nth_error (Pandas.rolling w agg xs) i =
  Some (let win := Pandas.window_at w i (Pandas.prep_values xs) in
        if existsb PrimFloat.is_nan win then PrimFloat.nan else agg win).
Proof.
  intros Hi Hw. unfold Pandas.rolling.
  rewrite nth_error_map, nth_error_seq.
  apply Nat.ltb_lt in Hi. rewrite Hi. cbn [option_map].
  change (0 + i)%nat with i.
  assert (E : (i + 1 <? w)%nat = false) by (apply Nat.ltb_ge; lia).
  now rewrite E.
Qed.

(** The twentieth row has only nineteen returns behind it. *)
Lemma volatility_row_19 xs :
  (19 < length xs)%nat ->
  nth_error (Pandas.rolling 20 Pandas.std (daily_returns xs)) 19 =
  Some PrimFloat.nan.
Proof.
  intros Hlen. rewrite rolling_at by (rewrite ?daily_returns_length; lia).
  destruct xs as [|x xs]; [simpl in Hlen; lia|].
  destruct (daily_returns_head x xs) as [rest ->].
  reflexivity.
Qed.

Lemma derived_cell_missing xs i :
  (i < length xs)%nat -> (i < 20)%nat ->
  exists key c,
    In key derived_fields /\
    nth_error (derived_column xs key) i = Some c /\ isna c = true.
Proof.
  intros Hi H20. destruct (Nat.eq_dec i 19%nat) as [->|Hne].
  - exists "Volatility", (CFloat PrimFloat.nan). split; [|split].
    + unfold derived_fields; simpl; auto.
    + unfold derived_column. cbn [String.eqb Ascii.eqb Bool.eqb].
      unfold Pandas.of_float64. rewrite nth_error_map.
      now rewrite volatility_row_19.
    + reflexivity.
  - exists "MA20", (CFloat PrimFloat.nan). split; [|split].
    + unfold derived_fields; simpl; auto.
    + unfold derived_column. cbn [String.eqb Ascii.eqb Bool.eqb].
      unfold Pandas.of_float64. rewrite nth_error_map.
      rewrite rolling_lead; auto; lia.
    + reflexivity.
Qed.

Lemma dropna_mask_at df i :
  (i < nrows df)%nat ->
  nth_error (Pandas.dropna_mask df) i = Some (Pandas.row_complete (columns df) i).
Proof.
  intros Hi. unfold Pandas.dropna_mask.
  rewrite nth_error_map, nth_error_seq.
  apply Nat.ltb_lt in Hi. now rewrite Hi.
Qed.

Lemma keep_rows_sublist {A} mask (xs : list A) :
  Pandas.keep_rows mask xs `sublist_of` xs.
Proof.
  revert xs. induction mask as [|b mask IH]; intros [|x xs]; simpl;
    try apply sublist_nil_l.
  destruct b; [apply sublist_skip|apply sublist_cons]; apply IH.
Qed.

Lemma keep_rows_In {A} mask (xs : list A) x :
  In x (Pandas.keep_rows mask xs) -> In x xs.
Proof.
  intros H. apply list_elem_of_In. apply list_elem_of_In in H.
  eapply elem_of_sublist; [exact H|apply keep_rows_sublist].
Qed.

Lemma keep_rows_drop_prefix {A} n mask (xs : list A) :
  (forall i, (i < n)%nat -> (i < length mask)%nat ->
             nth_error mask i = Some false) ->
  Pandas.keep_rows mask xs = Pandas.keep_rows (skipn n mask) (skipn n xs).
Proof.
  revert mask xs. induction n as [|n IH]; intros mask xs H; [reflexivity|].
  destruct mask as [|b mask]; [now destruct (skipn (S n) xs)|].
  destruct xs as [|x xs].
  { simpl. now destruct (skipn n mask). }
  assert (Hb : b = false).
  { specialize (H 0%nat). simpl in H. assert (Some b = Some false) by (apply H; lia).
    congruence. }
  subst b. simpl. apply IH. intros i Hi Hl. apply (H (S i)); simpl; lia.
Qed.

Lemma keep_rows_not_in {A} mask (xs : list A) i d :
  List.NoDup xs -> nth_error xs i = Some d -> nth_error mask i = Some false ->
  ~ In d (Pandas.keep_rows mask xs).
Proof.
  revert xs i. induction mask as [|b mask IH]; intros [|x xs] i Hnd Hx Hm;
    simpl; auto.
  inversion Hnd as [|? ? Hnotin Hnd']; subst.
  destruct i as [|i]; simpl in Hx, Hm.
  - injection Hx as ->. injection Hm as ->.
    intros Hin. apply Hnotin. now apply keep_rows_In in Hin.
  - assert (Hrest : ~ In d (Pandas.keep_rows mask xs)) by (eapply IH; eauto).
    destruct b; auto. intros [->|Hin]; auto.
    apply Hnotin. now apply nth_error_In with i.
Qed.

(** X4. On a well-formed input with a numeric Close column, the rows
    [process_data] returns are rows of the input: one selection of row
    positions cuts down the index and every input column alike, so dates
    keep their order and their cells, none is invented, and the output is
    well formed and keeps the index name. *)
Theorem transform_keeps_input_rows (data : frame) :
  wf_frame data ->
  close_is_numeric data = true ->
  exists out mask,
    process_frame data = Ok out /\
    length mask = nrows data /\
    index out = Pandas.keep_rows mask (index data) /\
    (forall key col, ~ In key derived_fields ->
       lookup_column key (columns data) = Some col ->
       lookup_column key (columns out) = Some (Pandas.keep_rows mask col)) /\
    index out `sublist_of` index data /\
    index_name out = index_name data /\
    wf_frame out.
Proof.
  intros Hwf Hnum.
  destruct (process_frame_numeric _ Hnum) as (col & xs & Hc & Hx & Hp).
  pose proof (close_values_length _ _ _ Hwf Hc Hx) as Hlen.
  exists (Pandas.dropna (with_indicators data xs)),
         (Pandas.dropna_mask (with_indicators data xs)).
  split; [exact Hp|]. split; [now rewrite dropna_mask_length|].
  split; [reflexivity|]. split; [|split; [|split]].
  - intros key c Hkey Hl. now rewrite lookup_dropna, lookup_original, Hl.
  - unfold Pandas.dropna. cbn [index]. rewrite with_indicators_index.
    apply keep_rows_sublist.
  - reflexivity.
  - apply wf_dropna. now apply wf_with_indicators.
Qed.

Lemma transform_keeps_input_rows_witness :
  exists out mask,
    process_frame series25 = Ok out /\
    length mask = nrows series25 /\
    index out = Pandas.keep_rows mask (index series25) /\
    (forall key col, ~ In key derived_fields ->
       lookup_column key (columns series25) = Some col ->
       lookup_column key (columns out) = Some (Pandas.keep_rows mask col)) /\
    index out `sublist_of` index series25 /\
    index_name out = index_name series25 /\
    wf_frame out.
Proof.
  apply (transform_keeps_input_rows series25).
  - unfold wf_frame. repeat constructor.
  - reflexivity.
Defined.

(** X5. The first twenty rows of the input never come out: MA20 is
    missing on rows 0..18 and Volatility on row 19, whatever the prices
    are. The output's dates are among the input's dates from the
    twenty-first on, so an input of n rows gives at most n - 20 rows (none
    when n <= 20). *)
Theorem transform_drops_first_twenty (data : frame) :
  wf_frame data ->
  close_is_numeric data = true ->
  exists out,
    process_frame data = Ok out /\
    index out `sublist_of` skipn 20 (index data) /\
    (nrows out <= nrows data - 20)%nat.
Proof.
  intros Hwf Hnum.
  destruct (process_frame_numeric _ Hnum) as (col & xs & Hc & Hx & Hp).
  pose proof (close_values_length _ _ _ Hwf Hc Hx) as Hlen.
  eexists. split; [exact Hp|].
  assert (Hsub : index (Pandas.dropna (with_indicators data xs))
                 `sublist_of` skipn 20 (index data)).
  { unfold Pandas.dropna. cbn [index]. rewrite with_indicators_index.
    rewrite (keep_rows_drop_prefix 20); [apply keep_rows_sublist|].
    intros i Hi Hl. rewrite dropna_mask_length in Hl.
    rewrite dropna_mask_at by exact Hl. f_equal.
    unfold nrows in Hl. rewrite with_indicators_index in Hl.
    destruct (derived_cell_missing xs i) as (key & c & Hkey & Hn & Hna);
      [unfold nrows in Hlen; lia | lia |].
    apply (row_incomplete _ _ key (derived_column xs key) c); auto.
    apply lookup_column_In. now apply lookup_derived. }
  split; [exact Hsub|].
  apply sublist_length in Hsub. rewrite length_skipn in Hsub. exact Hsub.
Qed.

Lemma transform_drops_first_twenty_witness :
  exists out,
    process_frame series25 = Ok out /\
    index out `sublist_of` skipn 20 (index series25) /\
    (nrows out <= nrows series25 - 20)%nat.
Proof.
  apply (transform_drops_first_twenty series25).
  - unfold wf_frame. repeat constructor.
  - reflexivity.
Defined.

(** X6. A date on which any input column has a missing value does not
    come out: on a well-formed input with distinct dates and a numeric
    Close column, if some column (not one the indicators overwrite) is
    missing at a row, that row's date is not in the output's index. *)
Theorem transform_drops_incomplete_rows
  (data : frame) (key : string) (i : nat) (d : Z) (c : cell) :
  wf_frame data ->
  close_is_numeric data = true ->
  List.NoDup (index data) ->
  nth_error (index data) i = Some d ->
  ~ In key derived_fields ->
  cell_at data key i = Some c ->
  isna c = true ->
  exists out, process_frame data = Ok out /\ ~ In d (index out).
Proof.
  intros Hwf Hnum Hnd Hd Hkey Hcell Hna.
  destruct (process_frame_numeric _ Hnum) as (col & xs & Hc & Hx & Hp).
  eexists. split; [exact Hp|].
  unfold Pandas.dropna. cbn [index]. rewrite with_indicators_index.
  apply keep_rows_not_in with i; auto.
  assert (Hi : (i < nrows data)%nat).
  { unfold nrows. apply nth_error_Some. congruence. }
  rewrite dropna_mask_at by exact Hi. f_equal.
  unfold cell_at in Hcell.
  destruct (lookup_column key (columns data)) as [kcol|] eqn:Hl;
    [|discriminate].
  apply (row_incomplete _ _ key kcol c); auto.
  apply lookup_column_In. now rewrite lookup_original.
Qed.

Lemma transform_drops_incomplete_rows_witness :
  exists out,
    process_frame gap_series = Ok out /\ ~ In 738022 (index out) /\
    index out = [738020; 738021; 738023; 738024].
Proof.
  destruct (transform_drops_incomplete_rows gap_series "Volume" 22 738022
              (CFloat PrimFloat.nan)) as (out & Hp & Hn).
  - unfold wf_frame. repeat constructor.
  - reflexivity.
  - apply NoDup_ListNoDup. apply (bool_decide_unpack _).
    vm_compute. exact I.
  - reflexivity.
  - unfold derived_fields. simpl. intuition discriminate.
  - reflexivity.
  - reflexivity.
  - exists out. split; [exact Hp|]. split; [exact Hn|].
    vm_compute in Hp. injection Hp as <-. reflexivity.
Defined.

(** ** process_data: which columns come out *)

Lemma assign_column_names key col cols :
  map fst (assign_column key col cols) =
  if existsb (String.eqb key) (map fst cols) then map fst cols
  else map fst cols ++ [key].
Proof.
  induction cols as [|[k c] rest IH]; simpl; auto.
  rewrite (String.eqb_sym key k).
  destruct (String.eqb k key) eqn:E; simpl; auto.
  rewrite IH. now destruct (existsb (String.eqb key) (map fst rest)).
Qed.

Lemma existsb_eqb_false key names :
  ~ In key names -> existsb (String.eqb key) names = false.
Proof.
  intros H. destruct (existsb (String.eqb key) names) eqn:E; auto.
  apply existsb_exists in E as (k & Hin & Hk).
  apply String.eqb_eq in Hk. subst k. contradiction.
Qed.

Lemma setitem_names_prefix df key col :
  exists extra,
    column_names (setitem df key col) = column_names df ++ extra /\
    (~ In key (column_names df) -> extra = [key]).
Proof.
  unfold column_names, setitem. cbn [columns]. rewrite assign_column_names.
  destruct (existsb (String.eqb key) (map fst (columns df))) eqn:E.
  - exists []. split; [now rewrite app_nil_r|].
    intros H. now rewrite (existsb_eqb_false _ _ H) in E.
  - exists [key]. split; auto.
Qed.

Lemma dropna_names df : column_names (Pandas.dropna df) = column_names df.
Proof.
  unfold column_names, Pandas.dropna. cbn [columns].
  rewrite map_map. reflexivity.
Qed.

(** X7. [process_data] keeps the input's columns, in their order, and
    puts what it adds after them; when the input has none of MA5, MA20,
    Daily_Return and Volatility, the output's columns are the input's
    followed by these four, in this order. *)
Theorem transform_appends_indicator_columns (data : frame) :
  close_is_numeric data = true ->
  exists out extra,
    process_frame data = Ok out /\
    column_names out = column_names data ++ extra /\
    ((forall key, In key derived_fields -> ~ In key (column_names data)) ->
     extra = derived_fields).
Proof.
  intros Hnum.
  destruct (process_frame_numeric _ Hnum) as (col & xs & Hc & Hx & Hp).
  unfold with_indicators in Hp.
  set (c1 := Pandas.of_float64 (Pandas.rolling 5 Pandas.mean xs)) in *.
  set (c2 := Pandas.of_float64 (Pandas.rolling 20 Pandas.mean xs)) in *.
  set (c3 := Pandas.of_float64 (daily_returns xs)) in *.
  set (c4 := Pandas.of_float64 (Pandas.rolling 20 Pandas.std (daily_returns xs))) in *.
  cbv zeta in Hp.
  set (p1 := setitem data "MA5" c1) in *.
  set (p2 := setitem p1 "MA20" c2) in *.
  set (p3 := setitem p2 "Daily_Return" c3) in *.
  destruct (setitem_names_prefix data "MA5" c1) as (e1 & H1 & F1). fold p1 in H1.
  destruct (setitem_names_prefix p1 "MA20" c2) as (e2 & H2 & F2). fold p2 in H2.
  destruct (setitem_names_prefix p2 "Daily_Return" c3) as (e3 & H3 & F3).
  fold p3 in H3.
  destruct (setitem_names_prefix p3 "Volatility" c4) as (e4 & H4 & F4).
  eexists. exists (e1 ++ e2 ++ e3 ++ e4). split; [exact Hp|]. split.
  - rewrite dropna_names, H4, H3, H2, H1. now rewrite <- !app_assoc.
  - intros Hfresh.
    assert (N : forall key, In key derived_fields -> ~ In key (column_names data))
      by exact Hfresh.
    assert (E1 : e1 = ["MA5"]).
    { apply F1, N. unfold derived_fields; simpl; auto. }
    subst e1.
    assert (E2 : e2 = ["MA20"]).
    { apply F2. rewrite H1. intros Hin. apply in_app_or in Hin as [Hin|Hin].
      - revert Hin. apply N. unfold derived_fields; simpl; auto.
      - simpl in Hin. intuition discriminate. }
    subst e2.
    assert (E3 : e3 = ["Daily_Return"]).
    { apply F3. rewrite H2, H1. intros Hin.
      apply in_app_or in Hin as [Hin|Hin];
        [apply in_app_or in Hin as [Hin|Hin]|].
      - revert Hin. apply N. unfold derived_fields; simpl; auto.
      - simpl in Hin. intuition discriminate.
      - simpl in Hin. intuition discriminate. }
    subst e3.
    assert (E4 : e4 = ["Volatility"]).
    { apply F4. rewrite H3, H2, H1. intros Hin.
      apply in_app_or in Hin as [Hin|Hin];
        [apply in_app_or in Hin as [Hin|Hin];
         [apply in_app_or in Hin as [Hin|Hin]|]|].
      - revert Hin. apply N. unfold derived_fields; simpl; auto.
      - simpl in Hin. intuition discriminate.
      - simpl in Hin. intuition discriminate.
      - simpl in Hin. intuition discriminate. }
    subst e4. reflexivity.
Qed.

Lemma transform_appends_indicator_columns_witness :
  exists out extra,
    process_frame three_days = Ok out /\
    column_names out = column_names three_days ++ extra /\
    ((forall key, In key derived_fields -> ~ In key (column_names three_days)) ->
     extra = derived_fields).
Proof.
  apply (transform_appends_indicator_columns three_days). reflexivity.
Defined.

(** ** pct_change on prices without gaps *)

Lemma ffill_from_id last xs :
  Forall (fun x => PrimFloat.is_nan x = false) xs ->
  Pandas.ffill_from last xs = xs.
Proof.
  intros H. revert last. induction H as [|x xs Hx _ IH]; intros last; simpl; auto.
  rewrite Hx. now rewrite IH.
Qed.

Lemma zip_with_firstn {A B C} (f : A -> B -> C) l k :
  zip_with f l (firstn (length l) k) = zip_with f l k.
Proof.
  revert k. induction l as [|x l IH]; intros [|y k]; simpl; auto.
  now rewrite IH.
Qed.

Lemma nth_error_zip_with {A B C} (f : A -> B -> C) l k i a b :
  nth_error l i = Some a -> nth_error k i = Some b ->
  nth_error (zip_with f l k) i = Some (f a b).
Proof.
  revert k i. induction l as [|x l IH]; intros [|y k] [|i]; simpl;
    try discriminate.
  - now intros [= ->] [= ->].
  - apply IH.
Qed.

(** X8. On a Close column without missing values the padding of
    [pct_change] changes nothing: Daily_Return has one value per row, the
    first is missing, and from the second row on it is
    [close[t] / close[t-1] - 1] in float64 arithmetic. *)
Theorem daily_return_formula (xs : list float) :
  Forall (fun x => PrimFloat.is_nan x = false) xs ->
  exists rs,
    Pandas.pct_change (map CFloat xs) = Ok (map CFloat rs) /\
    length rs = length xs /\
    (xs <> [] -> nth_error rs 0 = Some PrimFloat.nan) /\
    (forall t prev cur,
       nth_error xs t = Some prev -> nth_error xs (S t) = Some cur ->
       nth_error rs (S t) =
         Some (PrimFloat.sub (PrimFloat.div cur prev) 1%float)).
Proof.
  intros Hclean. exists (daily_returns xs).
  split; [|split; [|split]].
  - unfold Pandas.pct_change.
    change (map CFloat xs) with (Pandas.of_float64 xs).
    now rewrite to_float64_of_float64.
  - apply daily_returns_length.
  - intros Hne. destruct xs as [|x xs]; [contradiction|].
    now destruct (daily_returns_head x xs) as [rest ->].
  - intros t prev cur Hp Hc. unfold daily_returns, Pandas.ffill.
    rewrite ffill_from_id by exact Hclean.
    destruct xs as [|x xs]; [destruct t; discriminate|].
    unfold Pandas.shift1. cbn [length firstn zip_with nth_error].
    rewrite zip_with_firstn.
    apply (nth_error_zip_with
             (fun a b => PrimFloat.sub (PrimFloat.div a b) 1%float)); auto.
Qed.

Lemma daily_return_formula_witness :
  exists rs,
    Pandas.pct_change (map CFloat closes_100_124) = Ok (map CFloat rs) /\
    length rs = length closes_100_124 /\
    (closes_100_124 <> [] -> nth_error rs 0 = Some PrimFloat.nan) /\
    (forall t prev cur,
       nth_error closes_100_124 t = Some prev ->
       nth_error closes_100_124 (S t) = Some cur ->
       nth_error rs (S t) =
         Some (PrimFloat.sub (PrimFloat.div cur prev) 1%float)).
Proof.
  apply (daily_return_formula closes_100_124).
  vm_compute. repeat constructor.
Defined.

(** ** save_data: what it writes and what it leaves alone *)

Lemma is_dir_insert_file f p c q :
  p <> [] ->
  Fs.is_dir (<[p := File c]> f) q =
  if decide (q = p) then false else Fs.is_dir f q.
Proof.
  intros Hp. unfold Fs.is_dir, Fs.lookup.
  destruct (decide (q = p)) as [->|Hne].
  - destruct p; [contradiction|]. now rewrite lookup_insert_eq.
  - destruct q; auto. now rewrite lookup_insert_ne.
Qed.

(** At the file's path stands a directory: the save raises and only the
    log changes. *)
Lemma save_data_is_dir F self data ticker w :
  Fs.is_dir (fs w) (Fs.parent (csv_path self ticker)) = true ->
  Fs.is_dir (fs w) (csv_path self ticker) = true ->
  save_data F self data ticker w =
    (Raise (IsADirectoryError (csv_path self ticker)),
     World (fs w)
           (log w ++ [(ERROR, SaveFailed (IsADirectoryError (csv_path self ticker)))])).
Proof.
  intros Hdir Hfile. unfold save_data, to_csv, Fs.write_text.
  fold (csv_path self ticker). run_monad.
  rewrite Hdir, Hfile. reflexivity.
Qed.

(** The three ways a save can go. *)
Lemma save_data_cases F self data ticker w :
  (Fs.is_dir (fs w) (Fs.parent (csv_path self ticker)) = true /\
   Fs.is_dir (fs w) (csv_path self ticker) = false /\
   save_data F self data ticker w =
     (Ok tt,
      World (<[csv_path self ticker := File (Csv.write_table (csv_table F data))]>
               (fs w))
            (log w ++ [(INFO, DataSaved (csv_path self ticker))]))) \/
  (exists e,
     (e = OSError (Fs.parent (csv_path self ticker)) \/
      e = IsADirectoryError (csv_path self ticker)) /\
     save_data F self data ticker w =
       (Raise e, World (fs w) (log w ++ [(ERROR, SaveFailed e)]))).
Proof.
  destruct (Fs.is_dir (fs w) (Fs.parent (csv_path self ticker))) eqn:Hdir.
  - destruct (Fs.is_dir (fs w) (csv_path self ticker)) eqn:Hfile.
    + right. eexists. split; [right; reflexivity|]. now apply save_data_is_dir.
    + left. repeat split; auto. now apply save_data_ok.
  - right. eexists. split; [left; reflexivity|]. now apply save_data_no_dir.
Qed.


(** A ticker with a path separator names a file below [data_dir]: with
    only [data_dir] in place the save raises, and nothing is written. *)
Lemma save_data_ticker_with_slash :
  csv_path (Processor ["stock_data"]) "BRK/B" =
    ["stock_data"; "BRK"; "B_stock_data.csv"] /\
  save_data plain_formats (Processor ["stock_data"]) three_days "BRK/B"
            ready_world =
    (Raise (OSError ["stock_data"; "BRK"]),
     World (fs ready_world)
           [(ERROR, SaveFailed (OSError ["stock_data"; "BRK"]))]).
Proof. split; reflexivity. Qed.

(** X10. Saving again replaces the file: where the directory of the
    ticker's file exists, after a save of one series and then of another
    under the same ticker, the file system is what the second save alone
    would have left, and no other path has changed. *)
Theorem save_data_replaces
  (F : formats) (self : processor) (first second : frame) (ticker : string)
  (w : world) :
  Fs.is_dir (fs w) (Fs.parent (csv_path self ticker)) = true ->
  Fs.is_dir (fs w) (csv_path self ticker) = false ->
  exists w1 w2,
    save_data F self first ticker w = (Ok tt, w1) /\
    save_data F self second ticker w1 = (Ok tt, w2) /\
    fs w2 = <[csv_path self ticker :=
                File (Csv.write_table (csv_table F second))]> (fs w) /\
    (forall p, p <> csv_path self ticker -> fs w2 !! p = fs w !! p).
Proof.
  intros Hdir Hfile.
  pose proof (not_dir_not_root _ _ Hfile) as Hroot.
  do 2 eexists. split; [now apply save_data_ok|].
  split; [|split].
  - apply save_data_ok; cbn [fs]; rewrite is_dir_insert_file by exact Hroot.
    + destruct (decide (Fs.parent (csv_path self ticker) = csv_path self ticker))
        as [E|]; auto.
      now apply parent_ne in E.
    + now destruct (decide (csv_path self ticker = csv_path self ticker)).
  - cbn [fs]. apply insert_insert_eq.
  - intros p Hp. cbn [fs]. now rewrite !lookup_insert_ne.
Qed.

Lemma save_data_replaces_witness :
  exists w1 w2,
    save_data plain_formats (Processor ["stock_data"]) three_days "AAPL"
              ready_world = (Ok tt, w1) /\
    save_data plain_formats (Processor ["stock_data"]) series25 "AAPL" w1 =
      (Ok tt, w2) /\
    fs w2 = <[csv_path (Processor ["stock_data"]) "AAPL" :=
                File (Csv.write_table (csv_table plain_formats series25))]>
              (fs ready_world) /\
    (forall p, p <> csv_path (Processor ["stock_data"]) "AAPL" ->
               fs w2 !! p = fs ready_world !! p).
Proof.
  apply (save_data_replaces plain_formats (Processor ["stock_data"])
           three_days series25 "AAPL" ready_world); reflexivity.
Defined.

(** X11. Each ticker has its own file: different tickers without a path
    separator give different paths, and a save for one of them, whether it
    succeeds or fails, leaves what stands at the other's path as it was. *)
Theorem tickers_have_their_own_files
  (F : formats) (self : processor) (data : frame) (ticker other : string)
  (w : world) :
  Pathlib.plain ticker = true ->
  Pathlib.plain other = true ->
  ticker <> other ->
  csv_path self ticker <> csv_path self other /\
  fs (snd (save_data F self data ticker w)) !! csv_path self other =
  fs w !! csv_path self other.
Proof.
  intros Hticker Hother Hne.
  assert (Hpath : csv_path self ticker <> csv_path self other).
  { rewrite (csv_path_plain _ _ Hticker), (csv_path_plain _ _ Hother).
    intros H. apply app_inv_head in H.
    injection H as H. now apply append_inj_l in H. }
  split; [exact Hpath|].
  destruct (save_data_cases F self data ticker w)
    as [(_ & _ & ->)|(e & _ & ->)]; cbn [snd fs]; auto.
  now rewrite lookup_insert_ne.
Qed.

Lemma tickers_have_their_own_files_witness :
  csv_path (Processor ["stock_data"]) "AAPL" <>
  csv_path (Processor ["stock_data"]) "MSFT" /\
  fs (snd (save_data plain_formats (Processor ["stock_data"]) three_days
                     "AAPL" msft_world))
     !! csv_path (Processor ["stock_data"]) "MSFT" =
  fs msft_world !! csv_path (Processor ["stock_data"]) "MSFT".
Proof.
  apply (tickers_have_their_own_files plain_formats (Processor ["stock_data"])
           three_days "AAPL" "MSFT" msft_world).
  - reflexivity.
  - reflexivity.
  - discriminate.
Defined.

(** With a path separator two tickers can name one file. *)
Lemma dotted_ticker_same_file :
  csv_path (Processor ["stock_data"]) "./AAPL" =
  csv_path (Processor ["stock_data"]) "AAPL".
Proof. reflexivity. Qed.

(** ** __init__: making the directory *)

Lemma fs_lookup_insert_ne (f : gmap path node) (p q : path) n :
  q <> p -> Fs.lookup (<[p := n]> f) q = Fs.lookup f q.
Proof.
  intros Hne. unfold Fs.lookup. destruct q; auto. now rewrite lookup_insert_ne.
Qed.

(** The three ways a construction can go: the directory is there already,
    it is made, or the construction raises. *)
Lemma init_cases dir w :
  (Fs.is_dir (fs w) dir = true /\ init dir w = (Ok (Processor dir), w)) \/
  (dir <> [] /\ Fs.lookup (fs w) dir = None /\
   Fs.is_dir (fs w) (Fs.parent dir) = true /\
   init dir w = (Ok (Processor dir), World (<[dir := Dir]> (fs w)) (log w))) \/
  (exists e, init dir w = (Raise e, w)).
Proof.
  unfold init, Fs.mkdir_exist_ok, Fs.os_mkdir. run_monad.
  destruct dir as [|d0 dir'].
  - left. split; reflexivity.
  - destruct (Fs.lookup (fs w) (Fs.parent (d0 :: dir'))) as [[|c]|] eqn:Hp.
    + destruct (Fs.lookup (fs w) (d0 :: dir')) as [[|c]|] eqn:Hd.
      * left. unfold Fs.is_dir. rewrite Hd. split; reflexivity.
      * right. right. unfold Fs.is_dir. rewrite Hd. eauto.
      * right. left. unfold Fs.is_dir. rewrite Hp.
        repeat split; auto; try discriminate.
    + destruct (Fs.is_dir (fs w) (d0 :: dir')) eqn:Hd.
      * left. split; reflexivity.
      * right. right. eauto.
    + right. right. eauto.
Qed.

(** X12. Constructing the processor is safe to repeat: when it raises, the
    world is as it was; when it returns, the directory exists, nothing was
    logged, no other path has changed, and constructing once more returns
    the same processor and changes nothing. *)
Theorem init_is_idempotent (dir : path) (w : world) :
  match init dir w with
  | (Ok self, w1) =>
      self = Processor dir /\
      Fs.is_dir (fs w1) dir = true /\
      log w1 = log w /\
      (forall p, p <> dir -> fs w1 !! p = fs w !! p) /\
      init dir w1 = (Ok self, w1)
  | (Raise e, w1) => w1 = w
  end.
Proof.
  destruct (init_cases dir w) as [(Hd & Hi)|[(Hne & Habs & Hpar & Hi)|(e & Hi)]];
    rewrite Hi; [repeat split; auto | | reflexivity].
  cbn [fs log]. split; [reflexivity|].
  split; [now apply is_dir_insert_dir|]. split; [reflexivity|].
  split; [intros p Hp; now rewrite lookup_insert_ne|].
  destruct (init_cases dir (World (<[dir := Dir]> (fs w)) (log w)))
    as [(_ & Hi2)|[(_ & Habs2 & _)|(e & Hi2)]]; auto.
  - cbn [fs] in Habs2. unfold Fs.lookup in Habs2.
    destruct dir; [contradiction|]. rewrite lookup_insert_eq in Habs2.
    discriminate.
  - exfalso. revert Hi2.
    unfold init, Fs.mkdir_exist_ok, Fs.os_mkdir. run_monad.
    destruct dir as [|d0 dir']; [contradiction|].
    rewrite fs_lookup_insert_ne by now apply parent_ne.
    unfold Fs.is_dir in Hpar.
    destruct (Fs.lookup (fs w) (Fs.parent (d0 :: dir'))) as [[|c]|];
      try discriminate.
    unfold Fs.lookup at 1. rewrite lookup_insert_eq. cbn [fs].
    rewrite is_dir_insert_dir by discriminate. discriminate.
Qed.

(** ** run_pipeline: how a run ends *)

Lemma fetch_cases P ticker days_back w :
  (exists raw added,
     fetch_stock_data P ticker days_back w =
       (Ok raw, World (fs w) (log w ++ added))) \/
  (exists e added,
     fetch_stock_data P ticker days_back w =
       (Raise e,
        World (fs w) (log w ++ added ++ [(ERROR, FetchFailed ticker e)]))).
Proof.
  destruct (date_sub (today P) days_back) as [start_date|e0] eqn:Hd.
  - destruct (history P ticker start_date (today P)) as [hist|e1] eqn:Hh.
    + left. destruct (info P ticker) as [d|e] eqn:Hi;
        [destruct (truthy (target_price d)) eqn:Ht|].
      * rewrite (fetch_info_truthy P ticker days_back start_date hist Hd Hh w d Hi Ht).
        eauto.
      * rewrite (fetch_info_falsy P ticker days_back start_date hist Hd Hh w d Hi Ht).
        eauto.
      * rewrite (fetch_info_raises P ticker days_back start_date hist Hd Hh w e Hi).
        eauto.
    + right. rewrite (fetch_history_raises _ _ _ _ _ w Hd Hh).
      exists e1, [fetching_entry P ticker start_date]. reflexivity.
  - right. rewrite (date_sub_raises _ _ _ Hd) in Hd.
    rewrite (fetch_date_overflow _ _ _ w Hd). exists OverflowError, []. reflexivity.
Qed.

(** X13. A run of the pipeline ends in one of two ways. Either it returns
    a series, the file system differs from before by exactly the ticker's
    file, which holds the CSV text of the returned series, and the log
    ends with the save message. Or it raises, the file system is as it was
    (nothing partial is left), and the log ends with the same exception
    logged twice: by the stage that failed (fetch or save) and by the
    pipeline. *)
Theorem pipeline_outcomes
  (P : provider) (F : formats) (self : processor) (ticker : string)
  (days_back : Z) (w : world) :
  match run_pipeline (StockDataProcessor P F self) ticker days_back w with
  | (Ok raw, w') =>
      fs w' = <[csv_path self ticker :=
                  File (Csv.write_table (csv_table F raw))]> (fs w) /\
      exists before,
        log w' = log w ++ before ++ [(INFO, DataSaved (csv_path self ticker))]
  | (Raise e, w') =>
      fs w' = fs w /\
      exists before stage,
        log w' = log w ++ before ++
                 [(ERROR, stage); (ERROR, PipelineFailed ticker e)] /\
        (stage = FetchFailed ticker e \/ stage = SaveFailed e)
  end.
Proof.
  unfold run_pipeline, StockDataProcessor. run_monad.
  cbn [self_fetch_stock_data self_save_data].
  destruct (fetch_cases P ticker days_back w)
    as [(raw & added & ->)|(e & added & ->)].
  - destruct (save_data_cases F self raw ticker (World (fs w) (log w ++ added)))
      as [(_ & _ & ->)|(e & _ & ->)]; cbn [fs log].
    + split; [reflexivity|]. exists added. now rewrite <- app_assoc.
    + split; [reflexivity|]. exists added, (SaveFailed e).
      split; [|now right]. now rewrite <- !app_assoc.
  - cbn [fs log]. split; [reflexivity|]. exists added, (FetchFailed ticker e).
    split; [|now left]. now rewrite <- !app_assoc.
Qed.

Lemma run_pipeline_cases P F self ticker days_back w :
  (exists raw w1 w',
     run_pipeline (StockDataProcessor P F self) ticker days_back w = (Ok raw, w') /\
     fetch_stock_data P ticker days_back w = (Ok raw, w1) /\
     fs w' = <[csv_path self ticker :=
                 File (Csv.write_table (csv_table F raw))]> (fs w)) \/
  (exists e w',
     run_pipeline (StockDataProcessor P F self) ticker days_back w = (Raise e, w') /\
     fs w' = fs w).
Proof.
  unfold run_pipeline, StockDataProcessor. run_monad.
  cbn [self_fetch_stock_data self_save_data].
  destruct (fetch_cases P ticker days_back w)
    as [(raw & added & ->)|(e & added & ->)].
  - destruct (save_data_cases F self raw ticker (World (fs w) (log w ++ added)))
      as [(_ & _ & ->)|(e & _ & ->)]; cbn [fs log].
    + left. do 3 eexists. repeat split; reflexivity.
    + right. do 2 eexists. split; reflexivity.
  - right. do 2 eexists. split; reflexivity.
Qed.

(** ** main *)

Lemma init_stock_data w :
  (forall c, fs w !! ["stock_data"] <> Some (File c)) ->
  exists w0,
    init ["stock_data"] w = (Ok (Processor ["stock_data"]), w0) /\
    fs w0 = <[["stock_data"] := Dir]> (fs w) /\
    log w0 = log w.
Proof.
  intros Hnofile. unfold init, Fs.mkdir_exist_ok, Fs.os_mkdir. run_monad.
  cbn [Fs.parent removelast]. unfold Fs.is_dir, Fs.lookup.
  destruct (fs w !! ["stock_data"]) as [[|c]|] eqn:E.
  - cbn [fs]. rewrite E. eexists. split; [reflexivity|]. split; [|reflexivity].
    symmetry. now apply insert_id.
  - now destruct (Hnofile c).
  - eexists. split; [reflexivity|split; reflexivity].
Qed.

Lemma init_stock_data_file w c :
  fs w !! ["stock_data"] = Some (File c) ->
  init ["stock_data"] w = (Raise (FileExistsError ["stock_data"]), w).
Proof.
  intros E. unfold init, Fs.mkdir_exist_ok, Fs.os_mkdir. run_monad.
  cbn [Fs.parent removelast]. unfold Fs.is_dir, Fs.lookup.
  rewrite E. cbn [fs]. now rewrite E.
Qed.

Lemma frame_head_rows df : (nrows (frame_head df) <= 5)%nat.
Proof. unfold nrows, frame_head. cbn [index]. rewrite length_firstn. lia. Qed.

(** X14. [main] raises only when the processor cannot be constructed:
    with a file standing at [stock_data] it raises FileExistsError and
    changes nothing. Otherwise it returns whatever the provider does and
    leaves the directory in place. Either the pipeline raised, and [main]
    printed the one error line and wrote no file; or it printed the
    success line, the title and at most five rows, of the series fetched
    for AAPL over 18 days, whose CSV text is in
    [stock_data/AAPL_stock_data.csv]. *)
Theorem main_outcomes (P : provider) (F : formats) (w : world) :
  (forall c, fs w !! ["stock_data"] = Some (File c) ->
     main P F w = (Raise (FileExistsError ["stock_data"]), w)) /\
  ((forall c, fs w !! ["stock_data"] <> Some (File c)) ->
   exists out w',
     main P F w = (Ok out, w') /\
     Fs.is_dir (fs w') ["stock_data"] = true /\
     ((exists e,
         out = [ErrorOccurred e] /\
         fs w' = <[["stock_data"] := Dir]> (fs w)) \/
      (exists raw w0 w1,
         out = [Succeeded "AAPL"; FirstRowsTitle; Rows (frame_head raw)] /\
         init ["stock_data"] w = (Ok (Processor ["stock_data"]), w0) /\
         fetch_stock_data P "AAPL" 18 w0 = (Ok raw, w1) /\
         fs w' = <[["stock_data"; "AAPL_stock_data.csv"] :=
                     File (Csv.write_table (csv_table F raw))]>
                   (<[["stock_data"] := Dir]> (fs w)) /\
         (nrows (frame_head raw) <= 5)%nat))).
Proof.
  split.
  - intros c E. unfold main, bind.
    now rewrite (init_stock_data_file w c E).
  - intros Hnofile.
    destruct (init_stock_data w Hnofile) as (w0 & Hinit & Hfs & Hlog).
    unfold main, bind at 1. rewrite Hinit. unfold try_except, bind, ret.
    destruct (run_pipeline_cases P F (Processor ["stock_data"]) "AAPL" 18 w0)
      as [(raw & w1 & w' & -> & Hf & Hw')|(e & w' & -> & Hw')].
    + do 2 eexists. split; [reflexivity|].
      change (csv_path (Processor ["stock_data"]) "AAPL")
        with ["stock_data"; "AAPL_stock_data.csv"] in Hw'.
      rewrite Hfs in Hw'. split.
      * rewrite Hw'. rewrite is_dir_insert_file by discriminate.
        destruct (decide (["stock_data"] = ["stock_data"; "AAPL_stock_data.csv"]));
          [discriminate|].
        now apply is_dir_insert_dir.
      * right. exists raw, w0, w1. repeat split; auto.
        apply frame_head_rows.
    + do 2 eexists. split; [reflexivity|]. rewrite Hw', Hfs. split.
      * now apply is_dir_insert_dir.
      * left. eauto.
Qed.
